(** * Derived metrics of the nonprofit grant dashboard

    The analytical core of the repository is three SQL views created by
    [NonprofitDataGenerator.create_views] (data/generate_nonprofit_data.py)
    and the loader queries of the dashboard (dashboard/streamlit_app.py).
    This development embeds those queries as functions over in-memory
    tables, with SQLite's NULL semantics written out.

    Numbers.  A REAL value is embedded as a rational [Q], a nullable
    column as an [option].  Where the result of a query is a label, as in
    the CASE tests of v_outcome_performance, the double-precision
    operation is embedded as such ([Binary64]): the binary64 number nearest
    to the exact result.  The other expressions and ROUND are embedded on
    exact values: SQLite's double-precision evaluation differs from them
    by a relative error of 2^-53 per operation, and its ROUND can then
    give the other neighbouring hundredth when the value lies within that
    error of a tie.  Statements about such values are given up to [Qeq]
    for the exact arithmetic, or with an explicit tolerance. *)

From Stdlib Require Import List String Ascii ZArith QArith Qround Qpower Qabs Bool Lia Lqa.
From Stdlib Require Import Sorted Permutation.
From Stdlib Require Import DecimalString DecimalNat Finite.
Import ListNotations.

Local Open Scope string_scope.
Local Open Scope list_scope.
Local Open Scope Q_scope.

(** ** SQLite expression semantics *)

Module Sql.

(** Strict comparison on rationals, as a boolean. *)
Definition Qltb (x y : Q) : bool := negb (Qle_bool y x).

(** Arithmetic operators propagate NULL. *)
Definition lift2 (f : Q -> Q -> Q) (a b : option Q) : option Q :=
  match a, b with
  | Some x, Some y => Some (f x y)
  | _, _ => None
  end.

Definition add : option Q -> option Q -> option Q := lift2 Qplus.
Definition sub : option Q -> option Q -> option Q := lift2 Qminus.
Definition mul : option Q -> option Q -> option Q := lift2 Qmult.

(** [a / b]: division by zero is not an error in SQLite, it is NULL. *)
Definition div (a b : option Q) : option Q :=
  match a, b with
  | Some x, Some y => if Qeq_bool y 0 then None else Some (x / y)
  | _, _ => None
  end.

(** Rounding of a rational to [n] decimal digits, halves away from zero:
    ROUND on the exact value.  SQLite rounds the double it is given
    through its decimal expansion, which gives this number except within
    rounding error of a tie. *)
Definition round_half_away (x : Q) (n : nat) : Q :=
  let s := inject_Z (10 ^ Z.of_nat n) in
  if Qle_bool 0 x
  then inject_Z (Qfloor (x * s + (1 # 2))) / s
  else - (inject_Z (Qfloor ((- x) * s + (1 # 2))) / s).

(** [ROUND(x, n)]: NULL for a NULL argument. *)
Definition round (x : option Q) (n : nat) : option Q :=
  match x with
  | Some v => Some (round_half_away v n)
  | None => None
  end.

(** Comparisons are three-valued: NULL when an operand is NULL. *)
Definition ge (a b : option Q) : option bool :=
  match a, b with
  | Some x, Some y => Some (Qle_bool y x)
  | _, _ => None
  end.

Definition gt (a b : option Q) : option bool :=
  match a, b with
  | Some x, Some y => Some (Qltb y x)
  | _, _ => None
  end.

Definition text_eq (a b : option string) : option bool :=
  match a, b with
  | Some x, Some y => Some (String.eqb x y)
  | _, _ => None
  end.

(** A WHERE clause or a CASE WHEN arm fires only on TRUE, not on NULL. *)
Definition truthy (c : option bool) : bool :=
  match c with
  | Some true => true
  | _ => false
  end.

(** [SUM(x)]: NULL inputs are skipped; the result is NULL when no
    non-NULL input was seen, otherwise the running total started at 0. *)
Definition sum_step (acc x : option Q) : option Q :=
  match x with
  | None => acc
  | Some v => Some (match acc with None => 0 + v | Some a => a + v end)
  end.

Definition sum (l : list (option Q)) : option Q := fold_left sum_step l None.

(** Sort order of values: NULL sorts before every number. *)
Definition null_leb (a b : option Q) : bool :=
  match a, b with
  | None, _ => true
  | Some _, None => false
  | Some x, Some y => Qle_bool x y
  end.

End Sql.

(** ** Binary64 rounding

    A stored REAL is a binary64 number, which is a rational.  [fl64 x] is
    the binary64 number nearest to the rational [x], a tie going to the
    even significand, with gradual underflow below 2^-1022; numbers of
    magnitude 2^1024 and more (which SQLite turns into infinities) are
    outside this model.  The result of one double-precision operation is
    [fl64] of the exact result. *)
Module Binary64.

(** [floor (log2 a)] for a positive rational. *)
Definition ilog2 (a : Q) : Z :=
  let k := (Z.log2 (Qnum a) - Z.log2 (Zpos (Qden a)))%Z in
  if Qle_bool (2 ^ k) a then k else (k - 1)%Z.

(** The integer nearest to [y], a tie going to the even one. *)
Definition nearest_even (y : Q) : Z :=
  let f := Qfloor y in
  match Qcompare (y - inject_Z f) (1 # 2) with
  | Lt => f
  | Gt => (f + 1)%Z
  | Eq => if Z.even f then f else (f + 1)%Z
  end.

(** The exponent of the last place of [a]: 53 significant bits, never
    below 2^-1074. *)
Definition ulp_exponent (a : Q) : Z := Z.max (ilog2 a - 52) (-1074).

Definition round_pos (a : Q) : Q :=
  if Qeq_bool a 0 then 0
  else inject_Z (nearest_even (a * 2 ^ (- ulp_exponent a)))
       * 2 ^ (ulp_exponent a).

Definition fl64 (x : Q) : Q :=
  let r := Qred x in
  if Qle_bool 0 r then round_pos r else - round_pos (Qred (- r)).

(** The smallest positive normal number, 2^-1022, and the unit roundoff
    2^-53: the relative error of rounding a number of the normal range. *)
Definition min_normal : Q := 2 ^ (-1022).

Definition unit_roundoff : Q := 1 # 9007199254740992.

(** [a * b] on two doubles, NULL propagating. *)
Definition mul (a b : option Q) : option Q :=
  match a, b with
  | Some x, Some y => Some (fl64 (x * y))
  | _, _ => None
  end.

End Binary64.

(** ** Base tables (columns as declared by [create_tables]) *)

Module grants.
Record row := {
  grant_id : string;                 (* TEXT PRIMARY KEY *)
  grant_name : string;               (* TEXT NOT NULL *)
  funder_name : string;              (* TEXT NOT NULL *)
  funder_type : option string;
  total_amount : Q;                  (* REAL NOT NULL *)
  start_date : string;               (* TEXT NOT NULL *)
  end_date : string;                 (* TEXT NOT NULL *)
  status : option string;
  grant_officer : option string;
  purpose : option string;
  reporting_frequency : option string
}.
End grants.

Module budget_categories.
Record row := {
  category_id : string;              (* TEXT PRIMARY KEY *)
  grant_id : string;                 (* TEXT NOT NULL *)
  category_name : string;            (* TEXT NOT NULL *)
  budgeted_amount : Q;               (* REAL NOT NULL *)
  spent_amount : option Q            (* REAL DEFAULT 0 *)
}.
End budget_categories.

Module deliverables.
Record row := {
  deliverable_id : string;           (* TEXT PRIMARY KEY *)
  grant_id : string;                 (* TEXT NOT NULL *)
  deliverable_name : string;         (* TEXT NOT NULL *)
  due_date : string;                 (* TEXT NOT NULL *)
  status : option string;
  completion_date : option string;
  notes : option string
}.
End deliverables.

Module outcome_metrics.
Record row := {
  metric_id : string;                (* TEXT PRIMARY KEY *)
  grant_id : string;                 (* TEXT NOT NULL *)
  metric_name : string;              (* TEXT NOT NULL *)
  target_value : Q;                  (* REAL NOT NULL *)
  current_value : option Q;          (* REAL DEFAULT 0 *)
  measurement_period : option string;
  unit_of_measure : option string
}.
End outcome_metrics.

Module reports.
Record row := {
  report_id : string;                (* TEXT PRIMARY KEY *)
  grant_id : string;                 (* TEXT NOT NULL *)
  report_type : string;              (* TEXT NOT NULL *)
  due_date : string;                 (* TEXT NOT NULL *)
  submission_date : option string;
  status : option string;
  submitted_by : option string
}.
End reports.

(** The tables the views read. *)
Record Database := {
  db_grants : list grants.row;
  db_budget_categories : list budget_categories.row;
  db_deliverables : list deliverables.row;
  db_outcome_metrics : list outcome_metrics.row;
  db_reports : list reports.row
}.

(** ** Rows of the three views *)

Module OutcomePerformance.
Record row := {
  grant_id : string;
  grant_name : string;
  metric_name : string;
  target_value : Q;
  current_value : option Q;
  achievement_percentage : option Q;
  unit_of_measure : option string;
  status : string
}.
End OutcomePerformance.

(** ** v_outcome_performance *)

(** ROUND(100.0 * om.current_value / om.target_value, 2) *)
Definition achievement_percentage (om : outcome_metrics.row) : option Q :=
  Sql.round
    (Sql.div (Sql.mul (Some 100) (outcome_metrics.current_value om))
             (Some (outcome_metrics.target_value om)))
    2.

(** The CASE expression of the view.  The second test compares the stored
    current value with [om.target_value * 0.75], a double-precision
    product: the status is read off the comparison with that rounded
    number. *)
Definition outcome_status (om : outcome_metrics.row) : string :=
  let current := outcome_metrics.current_value om in
  let target := Some (outcome_metrics.target_value om) in
  if Sql.truthy (Sql.ge current target) then "On Track"
  else if Sql.truthy (Sql.ge current (Binary64.mul target (Some 0.75)))
       then "Needs Attention"
       else "At Risk".

Definition outcome_row (om : outcome_metrics.row) (g : grants.row)
  : OutcomePerformance.row :=
  {| OutcomePerformance.grant_id := outcome_metrics.grant_id om;
     OutcomePerformance.grant_name := grants.grant_name g;
     OutcomePerformance.metric_name := outcome_metrics.metric_name om;
     OutcomePerformance.target_value := outcome_metrics.target_value om;
     OutcomePerformance.current_value := outcome_metrics.current_value om;
     OutcomePerformance.achievement_percentage := achievement_percentage om;
     OutcomePerformance.unit_of_measure := outcome_metrics.unit_of_measure om;
     OutcomePerformance.status := outcome_status om |}.

(** FROM outcome_metrics om JOIN grants g ON om.grant_id = g.grant_id:
    an inner join, one output row per matching pair. *)
Definition v_outcome_performance
  (gs : list grants.row) (oms : list outcome_metrics.row)
  : list OutcomePerformance.row :=
  flat_map
    (fun om =>
       map (outcome_row om)
           (filter (fun g => String.eqb (outcome_metrics.grant_id om)
                                        (grants.grant_id g)) gs))
    oms.

(** ** ORDER BY *)

(** A query's ORDER BY clause is embedded as a stable insertion sort under
    a boolean order on rows. *)
Section OrderBy.
Context {A : Type}.
Variable leb : A -> A -> bool.

Fixpoint insert_row (x : A) (l : list A) : list A :=
  match l with
  | [] => [x]
  | y :: r => if leb x y then x :: l else y :: insert_row x r
  end.

Definition order_by (l : list A) : list A := fold_right insert_row [] l.
End OrderBy.

(** Ascending and descending order on a nullable numeric sort key. *)
Definition asc {A : Type} (key : A -> option Q) (a b : A) : bool :=
  Sql.null_leb (key a) (key b).

Definition desc {A : Type} (key : A -> option Q) (a b : A) : bool :=
  Sql.null_leb (key b) (key a).

(** A list ordered by [desc key]: every row's key is at least the key of
    every later row, NULL keys counting as smallest. *)
Definition descending {A : Type} (key : A -> option Q) (l : list A) : Prop :=
  StronglySorted (fun a b => Sql.null_leb (key b) (key a) = true) l.

(** ** Julian day numbers *)

(** SQLite's [julianday] on the text forms the program passes to it: the
    literal 'now' and a date written as YYYY-MM-DD (what the generator
    stores, [str(d.date())]).  Other text yields NULL here. *)
Module Julian.

Definition digit (c : ascii) : option Z :=
  let n := (Z.of_nat (nat_of_ascii c) - 48)%Z in
  if ((0 <=? n) && (n <=? 9))%Z then Some n else None.

Definition digits2 (a b : ascii) : option Z :=
  match digit a, digit b with
  | Some x, Some y => Some (10 * x + y)%Z
  | _, _ => None
  end.

Definition digits4 (a b c d : ascii) : option Z :=
  match digits2 a b, digits2 c d with
  | Some x, Some y => Some (100 * x + y)%Z
  | _, _ => None
  end.

(** Year 0000..9999, month 01..12, day 01..31. *)
Definition parse_ymd (s : string) : option (Z * Z * Z) :=
  match s with
  | String y1 (String y2 (String y3 (String y4 (String sep1
      (String m1 (String m2 (String sep2
        (String d1 (String d2 EmptyString))))))))) =>
      if (Ascii.eqb sep1 "-" && Ascii.eqb sep2 "-")%bool then
        match digits4 y1 y2 y3 y4, digits2 m1 m2, digits2 d1 d2 with
        | Some y, Some m, Some d =>
            if ((1 <=? m) && (m <=? 12) && (1 <=? d) && (d <=? 31))%Z
            then Some (y, m, d) else None
        | _, _, _ => None
        end
      else None
  | _ => None
  end.

(** The day number of a calendar date at 00:00 (integer divisions
    truncate, as in C). *)
Definition computeJD (ymd : Z * Z * Z) : Q :=
  let '(y0, m0, d) := ymd in
  let y := if (m0 <=? 2)%Z then (y0 - 1)%Z else y0 in
  let m := if (m0 <=? 2)%Z then (m0 + 12)%Z else m0 in
  let a := Z.quot y 100 in
  let b := (2 - a + Z.quot a 4)%Z in
  let x1 := Z.quot (36525 * (y + 4716)) 100 in
  let x2 := Z.quot (306001 * (m + 1)) 10000 in
  inject_Z (x1 + x2 + d + b) - 1524.5.

(** [julianday] when the clock reads [clock] (a Julian day number). *)
Definition julianday (clock : Q) (s : string) : option Q :=
  if String.eqb s "now" then Some clock
  else option_map computeJD (parse_ymd s).

End Julian.

(** ** Rows of v_grant_summary and v_compliance_alerts *)

Module GrantSummary.
Record row := {
  grant_id : string;
  grant_name : string;
  funder_name : string;
  total_amount : Q;
  start_date : string;
  end_date : string;
  status : option string;
  total_spent : option Q;
  remaining_budget : option Q;
  spent_percentage : option Q;
  days_remaining : option Q
}.
End GrantSummary.

Module ComplianceAlert.
Record row := {
  alert_type : string;
  grant_id : string;
  item_name : string;
  due_date : option string;
  days_overdue : option Q   (* percent over budget for budget alerts *)
}.
End ComplianceAlert.

(** A row of the dashboard's alert query: ca.*, g.grant_name, g.funder_name *)
Module AlertListing.
Record row := {
  alert : ComplianceAlert.row;
  grant_name : string;
  funder_name : string
}.
Definition days_overdue (r : row) : option Q :=
  ComplianceAlert.days_overdue (alert r).
End AlertListing.

(** ** The views that read the clock *)

Section Views.

(** SQLite's date function [julianday]; [julianday "now"] is the clock. *)
Variable julianday : string -> option Q.

(** *** v_compliance_alerts *)

(** julianday('now') - julianday(due_date) *)
Definition days_since (due_date : string) : option Q :=
  Sql.sub (julianday "now") (julianday due_date).

Definition report_alert (r : reports.row) : ComplianceAlert.row :=
  {| ComplianceAlert.alert_type := "Overdue Report";
     ComplianceAlert.grant_id := reports.grant_id r;
     ComplianceAlert.item_name := reports.report_type r;
     ComplianceAlert.due_date := Some (reports.due_date r);
     ComplianceAlert.days_overdue := days_since (reports.due_date r) |}.

Definition deliverable_alert (d : deliverables.row) : ComplianceAlert.row :=
  {| ComplianceAlert.alert_type := "Overdue Deliverable";
     ComplianceAlert.grant_id := deliverables.grant_id d;
     ComplianceAlert.item_name := deliverables.deliverable_name d;
     ComplianceAlert.due_date := Some (deliverables.due_date d);
     ComplianceAlert.days_overdue := days_since (deliverables.due_date d) |}.

(** ROUND(100.0 * (bc.spent_amount - bc.budgeted_amount)
          / bc.budgeted_amount, 2) *)
Definition percent_over (bc : budget_categories.row) : option Q :=
  let spent := budget_categories.spent_amount bc in
  let budgeted := Some (budget_categories.budgeted_amount bc) in
  Sql.round (Sql.div (Sql.mul (Some 100) (Sql.sub spent budgeted)) budgeted) 2.

Definition budget_alert (bc : budget_categories.row) : ComplianceAlert.row :=
  {| ComplianceAlert.alert_type := "Budget Overspent";
     ComplianceAlert.grant_id := budget_categories.grant_id bc;
     ComplianceAlert.item_name := budget_categories.category_name bc;
     ComplianceAlert.due_date := None;
     ComplianceAlert.days_overdue := percent_over bc |}.

(** WHERE status = 'Overdue' *)
Definition report_overdue (r : reports.row) : bool :=
  Sql.truthy (Sql.text_eq (reports.status r) (Some "Overdue")).

Definition deliverable_overdue (d : deliverables.row) : bool :=
  Sql.truthy (Sql.text_eq (deliverables.status d) (Some "Overdue")).

(** WHERE bc.spent_amount > bc.budgeted_amount *)
Definition overspent (bc : budget_categories.row) : bool :=
  Sql.truthy (Sql.gt (budget_categories.spent_amount bc)
                     (Some (budget_categories.budgeted_amount bc))).

(** The three SELECTs, joined by UNION ALL. *)
Definition v_compliance_alerts
  (rs : list reports.row) (ds : list deliverables.row)
  (bcs : list budget_categories.row) : list ComplianceAlert.row :=
  map report_alert (filter report_overdue rs)
  ++ map deliverable_alert (filter deliverable_overdue ds)
  ++ map budget_alert (filter overspent bcs).

(** *** v_grant_summary *)

(** FROM grants g LEFT JOIN budget_categories bc
    ON g.grant_id = bc.grant_id: a grant without categories is kept,
    paired with an all-NULL category. *)
Definition categories_of (g : grants.row) (bcs : list budget_categories.row)
  : list budget_categories.row :=
  filter (fun bc => String.eqb (grants.grant_id g)
                               (budget_categories.grant_id bc)) bcs.

Definition join_grant (bcs : list budget_categories.row) (g : grants.row)
  : list (grants.row * option budget_categories.row) :=
  match categories_of g bcs with
  | [] => [(g, None)]
  | matched => map (fun bc => (g, Some bc)) matched
  end.

Definition left_join
  (gs : list grants.row) (bcs : list budget_categories.row)
  : list (grants.row * option budget_categories.row) :=
  flat_map (join_grant bcs) gs.

(** bc.spent_amount of a joined row. *)
Definition joined_spent (jr : grants.row * option budget_categories.row)
  : option Q :=
  match snd jr with
  | Some bc => budget_categories.spent_amount bc
  | None => None
  end.

(** GROUP BY g.grant_id: the distinct keys and the rows of one key. *)
Definition group_keys
  (j : list (grants.row * option budget_categories.row)) : list string :=
  nodup string_dec (map (fun jr => grants.grant_id (fst jr)) j).

Definition group_rows (k : string)
  (j : list (grants.row * option budget_categories.row))
  : list (grants.row * option budget_categories.row) :=
  filter (fun jr => String.eqb (grants.grant_id (fst jr)) k) j.

(** The output row of one group.  The columns of g outside the
    aggregates are read from a row of the group (here its first). *)
Definition summary_row
  (grp : list (grants.row * option budget_categories.row))
  : option GrantSummary.row :=
  match grp with
  | [] => None
  | (g, _) :: _ =>
      let total := Some (grants.total_amount g) in
      let spent := Sql.sum (map joined_spent grp) in
      Some {| GrantSummary.grant_id := grants.grant_id g;
              GrantSummary.grant_name := grants.grant_name g;
              GrantSummary.funder_name := grants.funder_name g;
              GrantSummary.total_amount := grants.total_amount g;
              GrantSummary.start_date := grants.start_date g;
              GrantSummary.end_date := grants.end_date g;
              GrantSummary.status := grants.status g;
              GrantSummary.total_spent := spent;
              GrantSummary.remaining_budget := Sql.sub total spent;
              GrantSummary.spent_percentage :=
                Sql.round (Sql.div (Sql.mul (Some 100) spent) total) 2;
              GrantSummary.days_remaining :=
                Sql.sub (julianday (grants.end_date g)) (julianday "now") |}
  end.

Definition v_grant_summary
  (gs : list grants.row) (bcs : list budget_categories.row)
  : list GrantSummary.row :=
  let j := left_join gs bcs in
  flat_map
    (fun k => match summary_row (group_rows k j) with
              | Some r => [r]
              | None => []
              end)
    (group_keys j).

End Views.

(** The sum of the stored spent_amount values of a list of categories,
    as the specification writes it (a category without a value adds
    nothing). *)
Definition sum_spent_amount (cats : list budget_categories.row) : Q :=
  fold_right
    (fun bc acc => match budget_categories.spent_amount bc with
                   | Some v => v + acc
                   | None => acc
                   end)
    0 cats.

(** ** The dashboard's loaders *)

Inductive exn := FileExistsError (msg : string).

Inductive result (A : Type) :=
| Return (a : A)
| Raise (e : exn).
Arguments Return {A} a.
Arguments Raise {A} e.

(** [get_connection]: the database file is looked up under four paths;
    [None] stands for a file system where none of them exists. *)
Definition get_connection (store : option Database) : result Database :=
  match store with
  | Some db => Return db
  | None => Raise (FileExistsError "Could not find nonprofit_grants.db")
  end.

Definition run_query {A : Type} (query : Database -> list A)
  (store : option Database) : result (list A) :=
  match get_connection store with
  | Return db => Return (query db)
  | Raise e => Raise e
  end.

Section Loaders.

Variable julianday : string -> option Q.

(** SELECT * FROM v_grant_summary ORDER BY days_remaining *)
Definition load_grant_summary : option Database -> result (list GrantSummary.row) :=
  run_query (fun db =>
    order_by (asc GrantSummary.days_remaining)
      (v_grant_summary julianday (db_grants db) (db_budget_categories db))).

(** FROM v_compliance_alerts ca JOIN grants g on ca.grant_id = g.grant_id *)
Definition alerts_join_grants
  (cas : list ComplianceAlert.row) (gs : list grants.row)
  : list AlertListing.row :=
  flat_map
    (fun ca =>
       map (fun g => {| AlertListing.alert := ca;
                        AlertListing.grant_name := grants.grant_name g;
                        AlertListing.funder_name := grants.funder_name g |})
           (filter (fun g => String.eqb (ComplianceAlert.grant_id ca)
                                        (grants.grant_id g)) gs))
    cas.

(** ... ORDER BY days_overdue DESC *)
Definition load_compliance_alerts : option Database -> result (list AlertListing.row) :=
  run_query (fun db =>
    order_by (desc AlertListing.days_overdue)
      (alerts_join_grants
         (v_compliance_alerts julianday (db_reports db) (db_deliverables db)
                              (db_budget_categories db))
         (db_grants db))).

(** SELECT * FROM v_outcome_performance ORDER BY achievement_percentage DESC *)
Definition load_outcome_performance
  : option Database -> result (list OutcomePerformance.row) :=
  run_query (fun db =>
    order_by (desc OutcomePerformance.achievement_percentage)
      (v_outcome_performance (db_grants db) (db_outcome_metrics db))).

End Loaders.

(** The alert box prints [int(alert['days_overdue'])] for a dated alert:
    Python's [int] truncates towards zero. *)
Definition py_int (x : Q) : Z :=
  if Qle_bool 0 x then Qfloor x else Qceiling x.

(** ** The two clocks

    The generator reads [datetime.now()], the wall clock of the machine's
    time zone, with no zone attached; the views read [julianday('now')],
    which is UTC.  An instant is a day number; [utc_offset] is local time
    minus UTC in days, positive east of Greenwich. *)
Module Clock.

Record reading := {
  utc : Q;
  utc_offset : Q
}.

(** Python's [datetime.now()]. *)
Definition datetime_now (k : reading) : Q := utc k + utc_offset k.

(** SQLite's [julianday('now')]. *)
Definition julianday_now (k : reading) : Q := utc k.

End Clock.

(** ** Status assignment in the synthetic data generator *)

(** Instants are day counts on the generator's clock ([datetime.now()]);
    [random.choice] is embedded as the list of values it chooses from. *)
Module Generator.

(** generate_deliverables, "Determine status" *)
Definition generate_deliverables_status (due_date now : Q) : list string :=
  if Sql.Qltb due_date (now - 30)
  then ["Completed"; "Completed"; "Completed"; "Late"]
  else if Sql.Qltb due_date now
       then ["Completed"; "In Progress"; "Overdue"]
       else ["Not Started"; "In Progress"].

(** generate_reports *)
Definition generate_reports_status (due_date now : Q) : list string :=
  if Sql.Qltb due_date (now - 15)
  then ["Submitted"]
  else if Sql.Qltb due_date now
       then ["Submitted"; "In Progress"; "Overdue"]
       else ["Not Started"].

End Generator.

(** ** Sample rows *)

(** Builders for concrete tables; the columns no view reads are fixed. *)
Module Sample.

Definition grant (id name : string) (total : Q) (end_date : string)
  : grants.row :=
  {| grants.grant_id := id;
     grants.grant_name := name;
     grants.funder_name := "Acme Foundation";
     grants.funder_type := Some "Foundation";
     grants.total_amount := total;
     grants.start_date := "2026-01-01";
     grants.end_date := end_date;
     grants.status := Some "Active";
     grants.grant_officer := None;
     grants.purpose := Some "Healthcare Access";
     grants.reporting_frequency := Some "Quarterly" |}.

Definition category (id grant_id name : string) (budgeted : Q)
  (spent : option Q) : budget_categories.row :=
  {| budget_categories.category_id := id;
     budget_categories.grant_id := grant_id;
     budget_categories.category_name := name;
     budget_categories.budgeted_amount := budgeted;
     budget_categories.spent_amount := spent |}.

Definition metric (id grant_id name : string) (target : Q)
  (current : option Q) : outcome_metrics.row :=
  {| outcome_metrics.metric_id := id;
     outcome_metrics.grant_id := grant_id;
     outcome_metrics.metric_name := name;
     outcome_metrics.target_value := target;
     outcome_metrics.current_value := current;
     outcome_metrics.measurement_period := Some "Quarterly";
     outcome_metrics.unit_of_measure := Some "Visits" |}.

Definition report (id grant_id due : string) (status : option string)
  : reports.row :=
  {| reports.report_id := id;
     reports.grant_id := grant_id;
     reports.report_type := "Financial Report";
     reports.due_date := due;
     reports.submission_date := None;
     reports.status := status;
     reports.submitted_by := None |}.

Definition deliverable (id grant_id due : string) (status : option string)
  : deliverables.row :=
  {| deliverables.deliverable_id := id;
     deliverables.grant_id := grant_id;
     deliverables.deliverable_name := "Final Report";
     deliverables.due_date := due;
     deliverables.status := status;
     deliverables.completion_date := None;
     deliverables.notes := None |}.

(** Noon of 2026-11-04 as a Julian day number. *)
Definition noon : Q := 2461349.

Definition julianday : string -> option Q := Julian.julianday noon.

(** A database in which a metric and an Overdue report point at a grant
    that has no row in [grants]. *)
Definition orphans : Database :=
  {| db_grants := [grant "GR001" "Clinic Program" 100000 "2027-01-01"];
     db_budget_categories := [];
     db_deliverables := [];
     db_outcome_metrics :=
       [metric "MET0001" "GR999" "Services Provided" 200 (Some 150)];
     db_reports := [report "REP0001" "GR999" "2026-11-01" (Some "Overdue")] |}.

(** A grant without budget categories, and one of zero amount. *)
Definition bare_grant : grants.row :=
  grant "GR001" "Clinic Program" 100000 "2027-01-01".

Definition zero_grant : grants.row :=
  grant "GR002" "Pantry Project" 0 "2027-01-01".

(** Three alerts of one grant: a report due 2026-11-01, a deliverable due
    2026-10-25, and a category 12.5% over budget. *)
Definition three_alerts : Database :=
  {| db_grants := [grant "GR001" "Clinic Program" 100000 "2027-01-01"];
     db_budget_categories :=
       [category "BC0005" "GR001" "Travel" 8000 (Some 9000);
        category "BC0006" "GR001" "Equipment" 8000 (Some 7000)];
     db_deliverables :=
       [deliverable "DEL0001" "GR001" "2026-10-25" (Some "Overdue");
        deliverable "DEL0002" "GR001" "2026-10-20" (Some "Completed")];
     db_outcome_metrics := [];
     db_reports := [report "REP0001" "GR001" "2026-11-01" (Some "Overdue")] |}.

(** One Overdue report, due 2026-11-01. *)
Definition late_report : reports.row :=
  report "REP0001" "GR001" "2026-11-01" (Some "Overdue").

End Sample.

(** A list ordered by [asc key]: every row's key is at most the key of
    every later row, NULL keys counting as smallest (so they come first). *)
Definition ascending {A : Type} (key : A -> option Q) (l : list A) : Prop :=
  StronglySorted (fun a b => Sql.null_leb (key a) (key b) = true) l.

(** Whether some grant carries the given grant_id. *)
Definition grant_exists (gs : list grants.row) (k : string) : bool :=
  existsb (fun g => String.eqb k (grants.grant_id g)) gs.

(** ** More of the dashboard *)

(** Text comparison and the three-valued AND of SQLite.  Text is ordered
    byte by byte, a proper prefix before its extensions. *)
Module SqlText.

Definition gt (a b : option string) : option bool :=
  match a, b with
  | Some x, Some y => Some (String.ltb y x)
  | _, _ => None
  end.

Definition and3 (a b : option bool) : option bool :=
  match a, b with
  | Some false, _ => Some false
  | _, Some false => Some false
  | Some true, Some true => Some true
  | _, _ => None
  end.

(** ORDER BY on a text column, descending. *)
Definition desc {A : Type} (key : A -> string) (a b : A) : bool :=
  String.leb (key b) (key a).

(** ORDER BY on two text columns, both ascending. *)
Definition asc2 {A : Type} (key1 key2 : A -> string) (a b : A) : bool :=
  match String.compare (key1 a) (key1 b) with
  | Lt => true
  | Gt => false
  | Eq => String.leb (key2 a) (key2 b)
  end.

End SqlText.

Module BudgetByCategory.
Record row := {
  grant_name : string;
  category_name : string;
  budgeted_amount : Q;
  spent_amount : option Q;
  remaining : option Q;
  spent_percentage : option Q
}.
End BudgetByCategory.

Module DeliverableStatus.
Record row := {
  grant_name : string;
  deliverable_name : string;
  due_date : string;
  status : option string;
  completion_date : option string;
  days_late : option Q
}.
End DeliverableStatus.

Module ReportTimeline.
Record row := {
  grant_name : string;
  report_type : string;
  due_date : string;
  submission_date : option string;
  status : option string
}.
End ReportTimeline.

(** ROUND(100.0 * bc.spent_amount / bc.budgeted_amount, 2), the
    per-category spent_percentage of [load_budget_by_category]. *)
Definition category_spent_percentage (bc : budget_categories.row) : option Q :=
  Sql.round
    (Sql.div (Sql.mul (Some 100) (budget_categories.spent_amount bc))
             (Some (budget_categories.budgeted_amount bc)))
    2.

Definition budget_by_category_row (bc : budget_categories.row) (g : grants.row)
  : BudgetByCategory.row :=
  {| BudgetByCategory.grant_name := grants.grant_name g;
     BudgetByCategory.category_name := budget_categories.category_name bc;
     BudgetByCategory.budgeted_amount := budget_categories.budgeted_amount bc;
     BudgetByCategory.spent_amount := budget_categories.spent_amount bc;
     BudgetByCategory.remaining :=
       Sql.sub (Some (budget_categories.budgeted_amount bc))
               (budget_categories.spent_amount bc);
     BudgetByCategory.spent_percentage := category_spent_percentage bc |}.

(** FROM budget_categories bc JOIN grants g on bc.grant_id = g.grant_id
    ORDER BY g.grant_name, bc.category_name *)
Definition load_budget_by_category
  : option Database -> result (list BudgetByCategory.row) :=
  run_query (fun db =>
    order_by (SqlText.asc2 BudgetByCategory.grant_name
                           BudgetByCategory.category_name)
      (flat_map
         (fun bc =>
            map (budget_by_category_row bc)
                (filter (fun g => String.eqb (budget_categories.grant_id bc)
                                             (grants.grant_id g))
                        (db_grants db)))
         (db_budget_categories db))).

(** FROM reports r JOIN grants g ON r.grant_id = g.grant_id
    ORDER BY r.due_date DESC *)
Definition load_reports_timeline
  : option Database -> result (list ReportTimeline.row) :=
  run_query (fun db =>
    order_by (SqlText.desc ReportTimeline.due_date)
      (flat_map
         (fun r =>
            map (fun g =>
                   {| ReportTimeline.grant_name := grants.grant_name g;
                      ReportTimeline.report_type := reports.report_type r;
                      ReportTimeline.due_date := reports.due_date r;
                      ReportTimeline.submission_date := reports.submission_date r;
                      ReportTimeline.status := reports.status r |})
                (filter (fun g => String.eqb (reports.grant_id r)
                                             (grants.grant_id g))
                        (db_grants db)))
         (db_reports db))).

Section DeliverableLoader.

Variable julianday : string -> option Q.

(** julianday of a nullable text. *)
Definition julianday_of (s : option string) : option Q :=
  match s with
  | Some t => julianday t
  | None => None
  end.

(** The CASE expression of [load_deliverables_status]. *)
Definition days_late (d : deliverables.row) : option Q :=
  if Sql.truthy (Sql.text_eq (deliverables.status d) (Some "Overdue"))
  then Sql.sub (julianday "now") (julianday (deliverables.due_date d))
  else if Sql.truthy
            (SqlText.and3
               (Sql.text_eq (deliverables.status d) (Some "Completed"))
               (SqlText.gt (deliverables.completion_date d)
                           (Some (deliverables.due_date d))))
       then Sql.sub (julianday_of (deliverables.completion_date d))
                    (julianday (deliverables.due_date d))
       else Some 0.

Definition deliverable_status_row (d : deliverables.row) (g : grants.row)
  : DeliverableStatus.row :=
  {| DeliverableStatus.grant_name := grants.grant_name g;
     DeliverableStatus.deliverable_name := deliverables.deliverable_name d;
     DeliverableStatus.due_date := deliverables.due_date d;
     DeliverableStatus.status := deliverables.status d;
     DeliverableStatus.completion_date := deliverables.completion_date d;
     DeliverableStatus.days_late := days_late d |}.

(** FROM deliverables d JOIN grants g ON d.grant_id = g.grant_id
    ORDER BY d.due_date DESC *)
Definition load_deliverables_status
  : option Database -> result (list DeliverableStatus.row) :=
  run_query (fun db =>
    order_by (SqlText.desc DeliverableStatus.due_date)
      (flat_map
         (fun d =>
            map (deliverable_status_row d)
                (filter (fun g => String.eqb (deliverables.grant_id d)
                                             (grants.grant_id g))
                        (db_grants db)))
         (db_deliverables db))).

End DeliverableLoader.

(** *** Page arithmetic *)

(** [Series.sum()] of pandas: missing values are skipped, an empty column
    sums to 0. *)
Definition series_sum (col : list (option Q)) : Q :=
  fold_left (fun acc x => match x with Some v => acc + v | None => acc end)
            col 0.

(** The four figures at the top of the Financial Management page. *)
Module Financial.
Record metrics := {
  total_budget : Q;
  total_spent : Q;
  remaining : Q;
  avg_burn : Q
}.
End Financial.

Definition show_financial_metrics (grants_df : list GrantSummary.row)
  : Financial.metrics :=
  {| Financial.total_budget :=
       series_sum (map (fun r => Some (GrantSummary.total_amount r)) grants_df);
     Financial.total_spent :=
       series_sum (map GrantSummary.total_spent grants_df);
     Financial.remaining :=
       series_sum (map GrantSummary.remaining_budget grants_df);
     Financial.avg_burn :=
       series_sum (map GrantSummary.spent_percentage grants_df) |}.

(** What a page function ends with: its figures, or an exception. *)
Inductive page_exn :=
| QueryError (e : exn)
| ZeroDivisionError.

Inductive page (A : Type) :=
| Shown (a : A)
| Crash (e : page_exn).
Arguments Shown {A} a.
Arguments Crash {A} e.

(** [a / b * 100] on two Python ints. *)
Definition py_percent (a b : nat) : page Q :=
  if Nat.eqb b 0 then Crash ZeroDivisionError
  else Shown (inject_Z (Z.of_nat a) / inject_Z (Z.of_nat b) * 100).

(** [len(df[df['status'] == value])] *)
Definition count_status {A : Type} (status : A -> option string)
  (value : string) (df : list A) : nat :=
  List.length
    (filter (fun r => match status r with
                      | Some s => String.eqb s value
                      | None => false
                      end) df).

(** show_outcomes, "Metrics on Track": on_track, total_metrics and the
    percentage shown as delta. *)
Definition metrics_on_track (outcomes_df : list OutcomePerformance.row)
  : page (nat * nat * Q) :=
  let on_track :=
    count_status (fun r => Some (OutcomePerformance.status r)) "On Track"
                 outcomes_df in
  let total_metrics := List.length outcomes_df in
  match py_percent on_track total_metrics with
  | Shown pct => Shown (on_track, total_metrics, pct)
  | Crash e => Crash e
  end.

Definition show_outcomes (store : option Database) : page (nat * nat * Q) :=
  match load_outcome_performance store with
  | Return outcomes_df => metrics_on_track outcomes_df
  | Raise e => Crash (QueryError e)
  end.

(** show_compliance, "Deliverables" and "Reports": completed of total and
    submitted of total, each with its percentage. *)
Definition show_compliance (julianday : string -> option Q)
  (store : option Database) : page ((nat * nat * Q) * (nat * nat * Q)) :=
  match load_compliance_alerts julianday store,
        load_deliverables_status julianday store,
        load_reports_timeline store with
  | Return _, Return deliverables_df, Return reports_df =>
      let total_deliverables := List.length deliverables_df in
      let completed :=
        count_status DeliverableStatus.status "Completed" deliverables_df in
      match py_percent completed total_deliverables with
      | Crash e => Crash e
      | Shown dpct =>
          let total_reports := List.length reports_df in
          let submitted :=
            count_status ReportTimeline.status "Submitted" reports_df in
          match py_percent submitted total_reports with
          | Crash e => Crash e
          | Shown rpct =>
              Shown ((completed, total_deliverables, dpct),
                     (submitted, total_reports, rpct))
          end
      end
  | Raise e, _, _ => Crash (QueryError e)
  | _, Raise e, _ => Crash (QueryError e)
  | _, _, Raise e => Crash (QueryError e)
  end.

(** show_overview, "Priority Alerts": [alerts_df.head(5)]. *)
Definition priority_alerts (alerts_df : list AlertListing.row)
  : list AlertListing.row :=
  firstn 5 alerts_df.

(** Databases used in the examples of the pages. *)
Module Fixture.

(** Two grants, one of them without budget categories. *)
Definition two_grants : Database :=
  {| db_grants := [Sample.bare_grant; Sample.zero_grant];
     db_budget_categories :=
       [Sample.category "BC0001" "GR001" "Travel" 50000 (Some 40000)];
     db_deliverables := [];
     db_outcome_metrics := [];
     db_reports := [] |}.

End Fixture.

(** ** More of the synthetic data generator *)

(** Random draws are inputs: [r] stands for one result of [random()],
    a number in [0, 1), and [random.uniform(a, b)] is [a + (b - a) * r]. *)
Module Generate.

Definition uniform (a b r : Q) : Q := a + (b - a) * r.

(** generate_budget_categories: the category names, in order. *)
Definition categories : list string :=
  ["Personnel Salaries"; "Fringe Benefits"; "Program Supplies"; "Equipment";
   "Travel"; "Consultants"; "Facilities"; "Indirect Costs"].

(** The percentage drawn for a category that is not the last one. *)
Definition percentage (category : string) (r : Q) : Q :=
  if String.eqb category "Personnel Salaries" then uniform 0.40 0.50 r
  else if String.eqb category "Fringe Benefits" then uniform 0.15 0.20 r
  else if String.eqb category "Indirect Costs" then uniform 0.08 0.12 r
  else uniform 0.03 0.10 r.

(** The loop "Distribute budget across categories" for one grant: [idx]
    counts the categories already handled, [n] is [len(categories)],
    [draw idx] is the draw used for category [idx], and [remaining] is the
    running remainder.  The result lists each category with its amount. *)
Fixpoint distribute (total : Q) (draw : nat -> Q) (n idx : nat)
  (cats : list string) (remaining : Q) : list (string * Q) :=
  match cats with
  | [] => []
  | category :: rest =>
      if Nat.eqb idx (n - 1)
      then (category, remaining)
             :: distribute total draw n (S idx) rest remaining
      else
        let amount := total * percentage category (draw idx) in
        (category, amount)
          :: distribute total draw n (S idx) rest (remaining - amount)
  end.

Definition budget_amounts (total : Q) (draw : nat -> Q) : list (string * Q) :=
  distribute total draw (List.length categories) 0 categories total.

(** The sum of the amounts of a distribution. *)
Definition amounts_total (l : list (string * Q)) : Q :=
  fold_right (fun ca acc => snd ca + acc) 0 l.

End Generate.

(** Python's built-in numeric helpers, on exact rationals. *)
Module Py.

(** [round(x, n)]: to [n] decimals, a tie going to the even neighbour. *)
Definition round_to_int (y : Q) : Z :=
  let f := Qfloor y in
  match Qcompare (y - inject_Z f) (1 # 2) with
  | Lt => f
  | Gt => (f + 1)%Z
  | Eq => if Z.even f then f else (f + 1)%Z
  end.

Definition round (x : Q) (n : nat) : Q :=
  let s := inject_Z (10 ^ Z.of_nat n) in
  inject_Z (round_to_int (x * s)) / s.

(** [str(n)] of a non-negative int. *)
Definition str (n : nat) : string :=
  NilEmpty.string_of_uint (Nat.to_uint n).

(** [f"{n:0{width}d}"]: decimal digits, zeros in front up to [width]. *)
Definition zero_pad (width n : nat) : string :=
  String.append
    (string_of_list_ascii (repeat "0"%char (width - String.length (str n))))
    (str n).

(** [int(s)] of a string of decimal digits. *)
Definition int (s : string) : option nat :=
  option_map Nat.of_uint (NilEmpty.uint_of_string s).

End Py.

(** The rows [generate_budget_categories] writes. *)
Module BudgetRows.

(** What the function reads from a grant: its id, amount and status, and
    the two day counts [(datetime.now() - start).days] and
    [(end - start).days]. *)
Record grant := {
  grant_id : string;
  total_amount : Q;
  status : string;
  days_elapsed : Z;
  total_days : Z
}.

(** progress = min(days_elapsed / total_days, 1.0) if total_days > 0 else 0 *)
Definition progress (g : grant) : Q :=
  if (0 <? total_days g)%Z
  then let p := inject_Z (days_elapsed g) / inject_Z (total_days g) in
       if Qle_bool p 1 then p else 1
  else 0.

Definition spent_pct (g : grant) (r : Q) : Q :=
  if String.eqb (status g) "Completed"
  then Generate.uniform 0.90 1.00 r
  else progress g * Generate.uniform 0.85 1.15 r.

(** The row appended for one category; [count] is [len(budget_cats)]
    at that moment. *)
Definition category_row (g : grant) (count : nat) (category : string)
  (amount r : Q) : budget_categories.row :=
  {| budget_categories.category_id :=
       String.append "BC" (Py.zero_pad 4 (count + 1));
     budget_categories.grant_id := grant_id g;
     budget_categories.category_name := category;
     budget_categories.budgeted_amount := Py.round amount 2;
     budget_categories.spent_amount :=
       Some (Py.round (amount * spent_pct g r) 2) |}.

(** The inner loop for one grant: [amounts] is the distribution of its
    total, [spend idx] the draw for the spending of category [idx]. *)
Fixpoint grant_rows (g : grant) (count idx : nat) (spend : nat -> Q)
  (amounts : list (string * Q)) : list budget_categories.row :=
  match amounts with
  | [] => []
  | (category, amount) :: rest =>
      category_row g count category amount (spend idx)
        :: grant_rows g (S count) (S idx) spend rest
  end.

(** The outer loop; [draw k] and [spend k] are the draws for the [k]-th
    grant, [budget_cats] the rows written so far. *)
Fixpoint generate_from (k : nat) (gs : list grant)
  (draw spend : nat -> nat -> Q) (budget_cats : list budget_categories.row)
  : list budget_categories.row :=
  match gs with
  | [] => budget_cats
  | g :: rest =>
      generate_from (S k) rest draw spend
        (budget_cats
         ++ grant_rows g (List.length budget_cats) 0 (spend k)
              (Generate.budget_amounts (total_amount g) (draw k)))
  end.

Definition generate_budget_categories (gs : list grant)
  (draw spend : nat -> nat -> Q) : list budget_categories.row :=
  generate_from 0 gs draw spend [].

End BudgetRows.

(** Sample input of the budget generator: one completed grant, and draws
    that are all one half or all 0.99. *)
Module GenSample.

Definition completed : BudgetRows.grant :=
  {| BudgetRows.grant_id := "GR001";
     BudgetRows.total_amount := 100000;
     BudgetRows.status := "Completed";
     BudgetRows.days_elapsed := 400;
     BudgetRows.total_days := 360 |}.

Definition halves : nat -> nat -> Q := fun _ _ => 0.5.

Definition high : nat -> Q := fun _ => 0.99.

End GenSample.

(** generate_grants: the ids of [n] grants, f'GR{i+1:03d}' for i in
    range(n). *)
Definition generate_grants_ids (n : nat) : list string :=
  map (fun i => String.append "GR" (Py.zero_pad 3 (i + 1))) (seq 0 n).

(** The sum of the budgeted_amount column of a list of categories. *)
Definition sum_budgeted_amount (cats : list budget_categories.row) : Q :=
  fold_right (fun bc acc => budget_categories.budgeted_amount bc + acc) 0 cats.

(** generate_reports: how many reports a grant gets and when they fall
    due, in days after the start date.  [days] is [(end - start).days]. *)
Module ReportSchedule.

Definition n_reports (days : Z) (reporting_frequency : string) : Z :=
  let n :=
    if String.eqb reporting_frequency "Quarterly"
    then py_int (inject_Z days / 90)
    else if String.eqb reporting_frequency "Semi-Annual"
         then py_int (inject_Z days / 180)
         else py_int (inject_Z days / 365) in
  Z.max 2 (Z.min n 12).

(** int((end - start).days * ((i + 1) / n_reports)) *)
Definition due_offset (days n i : Z) : Z :=
  py_int (inject_Z days * (inject_Z (i + 1) / inject_Z n)).

Definition due_offsets (days : Z) (reporting_frequency : string) : list Z :=
  let n := n_reports days reporting_frequency in
  map (fun i => due_offset days n (Z.of_nat i)) (seq 0 (Z.to_nat n)).

End ReportSchedule.

(** generate_outcome_metrics: the metrics of a purpose and the values of
    one metric. *)
Module MetricRows.

Definition metrics_by_purpose : list (string * list (string * string)) :=
  [("Youth Education Programs",
    [("Students Enrolled", "Participants");
     ("Program Completion Rate", "Percentage");
     ("Average Grade Improvement", "Points");
     ("Parent Satisfaction Score", "Rating")]);
   ("Healthcare Access",
    [("Patients Served", "Individuals");
     ("Services Provided", "Sessions");
     ("Preventive Care Visits", "Visits");
     ("Patient Satisfaction", "Rating")]);
   ("Food Security Initiatives",
    [("Meals Distributed", "Meals");
     ("Families Served", "Households");
     ("Food Bank Visits", "Visits");
     ("Pounds of Food Distributed", "Pounds")]);
   ("Mental Health Services",
    [("Clients Served", "Individuals");
     ("Counseling Sessions", "Sessions");
     ("Crisis Interventions", "Interventions");
     ("Client Improvement Rate", "Percentage")]);
   ("Job Training and Placement",
    [("Trainees Enrolled", "Participants");
     ("Certifications Earned", "Certificates");
     ("Job Placements", "Placements");
     ("Average Wage Increase", "Dollars")])].

Definition default_metrics : list (string * string) :=
  [("Program Participants", "Individuals");
   ("Program Activities", "Events");
   ("Community Reach", "People");
   ("Satisfaction Rate", "Percentage")].

(** metrics_by_purpose.get(purpose, default_metrics) *)
Definition metric_list (purpose : string) : list (string * string) :=
  match find (fun entry => String.eqb (fst entry) purpose) metrics_by_purpose with
  | Some entry => snd entry
  | None => default_metrics
  end.

(** The target: a uniform draw [rt] for percentages and ratings, the
    result [k] of [random.randint] otherwise. *)
Definition target (unit : string) (rt : Q) (k : Z) : Q :=
  if String.eqb unit "Percentage" then Generate.uniform 75 95 rt
  else if String.eqb unit "Rating" then Generate.uniform 4.0 5.0 rt
  else inject_Z k.

Definition current (unit : string) (tgt rc : Q) : Q :=
  if String.eqb unit "Percentage" then tgt * Generate.uniform 0.60 1.10 rc
  else if String.eqb unit "Rating" then tgt * Generate.uniform 0.85 1.05 rc
  else if (String.eqb unit "Participants" || String.eqb unit "Individuals")%bool
       then tgt * Generate.uniform 0.50 1.20 rc
       else tgt * Generate.uniform 0.60 1.15 rc.

(** The row appended for one metric; [count] is [len(metrics)]. *)
Definition metric_row (count : nat) (grant_id reporting_frequency : string)
  (metric_name unit : string) (rt : Q) (k : Z) (rc : Q) : outcome_metrics.row :=
  let tgt := target unit rt k in
  {| outcome_metrics.metric_id :=
       String.append "MET" (Py.zero_pad 4 (count + 1));
     outcome_metrics.grant_id := grant_id;
     outcome_metrics.metric_name := metric_name;
     outcome_metrics.target_value := Py.round tgt 2;
     outcome_metrics.current_value := Some (Py.round (current unit tgt rc) 2);
     outcome_metrics.measurement_period := Some reporting_frequency;
     outcome_metrics.unit_of_measure := Some unit |}.

End MetricRows.

(** * Properties *)

(** ** Comparisons and rounding *)

Lemma Qltb_lt (x y : Q) : Sql.Qltb x y = true <-> x < y.
Proof.
  unfold Sql.Qltb. rewrite negb_true_iff. split; intro H.
  - apply Qnot_le_lt. intro Hle. apply Qle_bool_iff in Hle. congruence.
  - destruct (Qle_bool y x) eqn:E; [|reflexivity].
    apply Qle_bool_iff in E. exfalso. apply (Qlt_not_le _ _ H E).
Qed.

Lemma Qle_bool_false (x y : Q) : Qle_bool x y = false <-> y < x.
Proof.
  rewrite <- Qltb_lt. unfold Sql.Qltb. rewrite negb_true_iff. reflexivity.
Qed.

Lemma truthy_ge (x y : Q) :
  Sql.truthy (Sql.ge (Some x) (Some y)) = true <-> y <= x.
Proof.
  simpl. destruct (Qle_bool y x) eqn:E.
  - apply Qle_bool_iff in E. tauto.
  - apply Qle_bool_false in E. split; [discriminate|].
    intro H. exfalso. apply (Qlt_not_le _ _ E H).
Qed.

Lemma truthy_gt (x y : Q) :
  Sql.truthy (Sql.gt (Some x) (Some y)) = true <-> y < x.
Proof.
  simpl. destruct (Sql.Qltb y x) eqn:E.
  - apply Qltb_lt in E. tauto.
  - split; [discriminate|]. intro H. apply Qltb_lt in H. congruence.
Qed.

Lemma scale_pos (n : nat) : 0 < inject_Z (10 ^ Z.of_nat n).
Proof.
  replace 0 with (inject_Z 0) by reflexivity. rewrite <- Zlt_Qlt.
  apply Z.pow_pos_nonneg; lia.
Qed.

Lemma Qfloor_nonneg (x : Q) : 0 <= x -> (0 <= Qfloor x)%Z.
Proof.
  intro H. change 0%Z with (Qfloor 0). apply Qfloor_resp_le. exact H.
Qed.

Lemma scaled_floor_mono (s x y : Q) :
  0 < s -> x <= y ->
  inject_Z (Qfloor (x * s + (1 # 2))) / s
  <= inject_Z (Qfloor (y * s + (1 # 2))) / s.
Proof.
  intros Hs Hxy. unfold Qdiv. apply Qmult_le_compat_r.
  - rewrite <- Zle_Qle. apply Qfloor_resp_le.
    apply Qplus_le_compat; [|apply Qle_refl].
    apply Qmult_le_compat_r; [exact Hxy|apply Qlt_le_weak; exact Hs].
  - apply Qlt_le_weak, Qinv_lt_0_compat, Hs.
Qed.

Lemma scaled_floor_nonneg (s x : Q) :
  0 < s -> 0 <= x -> 0 <= inject_Z (Qfloor (x * s + (1 # 2))) / s.
Proof.
  intros Hs Hx. unfold Qdiv. apply Qmult_le_0_compat.
  - replace 0 with (inject_Z 0) by reflexivity. rewrite <- Zle_Qle.
    apply Qfloor_nonneg.
    assert (0 <= x * s) by (apply Qmult_le_0_compat; [exact Hx|apply Qlt_le_weak, Hs]).
    lra.
  - apply Qlt_le_weak, Qinv_lt_0_compat, Hs.
Qed.

(** Rounding is monotone. *)
Lemma round_half_away_mono (n : nat) (x y : Q) :
  x <= y -> Sql.round_half_away x n <= Sql.round_half_away y n.
Proof.
  intro Hxy. unfold Sql.round_half_away.
  pose proof (scale_pos n) as Hs.
  destruct (Qle_bool 0 x) eqn:Ex; destruct (Qle_bool 0 y) eqn:Ey.
  - apply scaled_floor_mono; assumption.
  - apply Qle_bool_iff in Ex. apply Qle_bool_false in Ey. lra.
  - apply Qle_bool_false in Ex. apply Qle_bool_iff in Ey.
    pose proof (scaled_floor_nonneg _ (- x) Hs ltac:(lra)).
    pose proof (scaled_floor_nonneg _ y Hs Ey).
    lra.
  - apply Qopp_le_compat. apply scaled_floor_mono; [exact Hs|lra].
Qed.

(** ** Binary64 rounding *)

Lemma two_power_pos (k : Z) : 0 < 2 ^ k.
Proof. apply Qpower_0_lt. reflexivity. Qed.

Lemma two_power_succ (k : Z) : 2 ^ (k + 1) == 2 * 2 ^ k.
Proof. rewrite Qpower_plus by discriminate. rewrite Qpower_1_r. ring. Qed.

Lemma two_power_log2 (n : Z) :
  (0 < n)%Z ->
  2 ^ Z.log2 n <= inject_Z n /\ inject_Z n < 2 * 2 ^ Z.log2 n.
Proof.
  intro Hn. destruct (Z.log2_spec n Hn) as (Hlo & Hhi).
  pose proof (Z.log2_nonneg n) as H0.
  assert (E : inject_Z (2 ^ Z.log2 n) == 2 ^ Z.log2 n)
    by (apply (Zpower_Qpower 2); exact H0).
  split.
  - rewrite <- E. rewrite <- Zle_Qle. exact Hlo.
  - rewrite <- two_power_succ.
    assert (E' : inject_Z (2 ^ (Z.log2 n + 1)) == 2 ^ (Z.log2 n + 1))
      by (apply (Zpower_Qpower 2); lia).
    rewrite <- E'. rewrite <- Zlt_Qlt. exact Hhi.
Qed.

Lemma ilog2_spec (a : Q) :
  0 < a ->
  2 ^ Binary64.ilog2 a <= a /\ a < 2 * 2 ^ Binary64.ilog2 a.
Proof.
  intro Ha. destruct a as [n d].
  assert (Hn : (0 < n)%Z).
  { unfold Qlt in Ha. simpl in Ha. lia. }
  destruct (two_power_log2 n Hn) as (Nlo & Nhi).
  destruct (two_power_log2 (Zpos d) eq_refl) as (Dlo & Dhi).
  pose proof (two_power_pos (Z.log2 n)) as HX.
  pose proof (two_power_pos (Z.log2 (Zpos d))) as HY.
  assert (HD : 0 < inject_Z (Zpos d)) by reflexivity.
  assert (Ea : n # d == inject_Z n / inject_Z (Zpos d)) by apply Qmake_Qdiv.
  assert (Ek : 2 ^ (Z.log2 n - Z.log2 (Zpos d))
               == 2 ^ Z.log2 n / 2 ^ Z.log2 (Zpos d))
    by (apply Qpower_minus; discriminate).
  unfold Binary64.ilog2. cbn [Qnum Qden].
  set (X := 2 ^ Z.log2 n) in *. set (Y := 2 ^ Z.log2 (Zpos d)) in *.
  set (N := inject_Z n) in *. set (D := inject_Z (Zpos d)) in *.
  destruct (Qle_bool (2 ^ (Z.log2 n - Z.log2 (Z.pos d))) (n # d)) eqn:E.
  - apply Qle_bool_iff in E. split; [exact E|].
    rewrite Ek, Ea.
    apply Qlt_shift_div_r; [exact HD|].
    assert (H : N * Y < 2 * X * D) by nra.
    assert (E2 : 2 * (X / Y) * D == (2 * X * D) / Y) by (field; lra).
    rewrite E2. apply Qlt_shift_div_l; [exact HY|exact H].
  - apply Qle_bool_false in E.
    assert (Ek1 : 2 ^ (Z.log2 n - Z.log2 (Zpos d))
                  == 2 * 2 ^ (Z.log2 n - Z.log2 (Zpos d) - 1)).
    { rewrite <- two_power_succ. apply Qpower_comp; [reflexivity|lia]. }
    split.
    + assert (H : 2 ^ (Z.log2 n - Z.log2 (Zpos d) - 1) == X / (2 * Y)).
      { apply (Qmult_inj_l _ _ 2); [discriminate|].
        rewrite <- Ek1, Ek. field. lra. }
      rewrite H, Ea. apply Qle_shift_div_l; [exact HD|].
      assert (E2 : X / (2 * Y) * D == (X * D) / (2 * Y)) by (field; lra).
      rewrite E2. apply Qle_shift_div_r; [lra|]. nra.
    + rewrite <- Ek1. exact E.
Qed.

Lemma nearest_even_bounds (y : Q) :
  (Qfloor y <= Binary64.nearest_even y <= Qfloor y + 1)%Z.
Proof.
  unfold Binary64.nearest_even.
  destruct (Qcompare (y - inject_Z (Qfloor y)) (1 # 2)); [|lia|lia].
  destruct (Z.even (Qfloor y)); lia.
Qed.

Lemma nearest_even_error (y : Q) :
  y - (1 # 2) <= inject_Z (Binary64.nearest_even y)
  /\ inject_Z (Binary64.nearest_even y) <= y + (1 # 2).
Proof.
  pose proof (Qfloor_le y) as Hlo. pose proof (Qlt_floor y) as Hhi.
  rewrite inject_Z_plus in Hhi. change (inject_Z 1) with 1 in Hhi.
  unfold Binary64.nearest_even.
  destruct (Qcompare (y - inject_Z (Qfloor y)) (1 # 2)) eqn:C.
  - apply Qeq_alt in C.
    destruct (Z.even (Qfloor y)); [|rewrite inject_Z_plus];
      change (inject_Z 1) with 1; split; lra.
  - apply Qlt_alt in C. split; lra.
  - apply Qgt_alt in C. rewrite inject_Z_plus.
    change (inject_Z 1) with 1. split; lra.
Qed.

Lemma round_pos_error (a : Q) :
  0 < a ->
  a - (1 # 2) * 2 ^ Binary64.ulp_exponent a <= Binary64.round_pos a
  /\ Binary64.round_pos a <= a + (1 # 2) * 2 ^ Binary64.ulp_exponent a.
Proof.
  intro Ha. unfold Binary64.round_pos.
  destruct (Qeq_bool a 0) eqn:E.
  - apply Qeq_bool_iff in E. rewrite E in Ha. discriminate.
  - set (e := Binary64.ulp_exponent a).
    pose proof (two_power_pos e) as He.
    assert (Einv : 2 ^ (- e) * 2 ^ e == 1).
    { rewrite Qpower_opp. field. lra. }
    destruct (nearest_even_error (a * 2 ^ (- e))) as (Hlo & Hhi).
    set (m := inject_Z (Binary64.nearest_even (a * 2 ^ (- e)))) in *.
    assert (Ea : a == a * 2 ^ (- e) * 2 ^ e).
    { rewrite <- Qmult_assoc, Einv. ring. }
    split.
    + assert (H : (a * 2 ^ (- e) - (1 # 2)) * 2 ^ e <= m * 2 ^ e)
        by (apply Qmult_le_compat_r; [exact Hlo|lra]).
      assert (E2 : (a * 2 ^ (- e) - (1 # 2)) * 2 ^ e
                   == a * 2 ^ (- e) * 2 ^ e - (1 # 2) * 2 ^ e) by ring.
      rewrite E2, <- Ea in H. exact H.
    + assert (H : m * 2 ^ e <= (a * 2 ^ (- e) + (1 # 2)) * 2 ^ e)
        by (apply Qmult_le_compat_r; [exact Hhi|lra]).
      assert (E2 : (a * 2 ^ (- e) + (1 # 2)) * 2 ^ e
                   == a * 2 ^ (- e) * 2 ^ e + (1 # 2) * 2 ^ e) by ring.
      rewrite E2, <- Ea in H. exact H.
Qed.

(** In the normal range the last place is 2^-52 of the leading bit. *)
Lemma ulp_exponent_normal (a : Q) :
  Binary64.min_normal <= a ->
  (1 # 2) * 2 ^ Binary64.ulp_exponent a <= a * Binary64.unit_roundoff.
Proof.
  intro Ha.
  assert (Hpos : 0 < a).
  { apply Qlt_le_trans with Binary64.min_normal; [|exact Ha].
    apply two_power_pos. }
  destruct (ilog2_spec a Hpos) as (Hlo & Hhi).
  assert (Hk : (-1022 <= Binary64.ilog2 a)%Z).
  { assert (H : 2 ^ (-1022) < 2 ^ (Binary64.ilog2 a + 1)).
    { rewrite two_power_succ. apply Qle_lt_trans with a; assumption. }
    apply Qpower_lt_compat_l_inv in H; [lia|reflexivity]. }
  unfold Binary64.ulp_exponent. rewrite Z.max_l by lia.
  assert (E : 2 ^ (Binary64.ilog2 a - 52)
              == 2 ^ Binary64.ilog2 a * (1 # 4503599627370496)).
  { rewrite Qpower_minus by discriminate.
    unfold Qdiv. apply Qmult_comp; [reflexivity|]. reflexivity. }
  rewrite E. unfold Binary64.unit_roundoff.
  pose proof (two_power_pos (Binary64.ilog2 a)). lra.
Qed.

Lemma fl64_error (x : Q) :
  Binary64.min_normal <= x ->
  x - x * Binary64.unit_roundoff <= Binary64.fl64 x
  /\ Binary64.fl64 x <= x + x * Binary64.unit_roundoff.
Proof.
  intro Hx.
  assert (Hr : Binary64.min_normal <= Qred x) by (rewrite Qred_correct; exact Hx).
  assert (Hpos : 0 < Qred x).
  { apply Qlt_le_trans with Binary64.min_normal; [|exact Hr].
    apply two_power_pos. }
  unfold Binary64.fl64.
  destruct (Qle_bool 0 (Qred x)) eqn:E.
  - destruct (round_pos_error (Qred x) Hpos) as (Hlo & Hhi).
    pose proof (ulp_exponent_normal (Qred x) Hr) as Hu.
    pose proof (Qred_correct x) as Ex.
    unfold Binary64.unit_roundoff in *. split; lra.
  - apply Qle_bool_false in E. lra.
Qed.

Lemma fl64_comp (x y : Q) : x == y -> Binary64.fl64 x = Binary64.fl64 y.
Proof.
  intro H. unfold Binary64.fl64. rewrite (Qred_complete x y H). reflexivity.
Qed.

(** The rounding on known doubles: 0.1 is 0x3FB999999999999A, that is
    3602879701896397 / 2^55; numbers that are doubles already are kept;
    and the product 75.04 * 0.75 rounds to the double of 56.28. *)
Example fl64_examples :
  Binary64.fl64 0.1 == 3602879701896397 # 36028797018963968
  /\ Binary64.fl64 150 == 150
  /\ Binary64.fl64 (-(3 # 8)) == -(3 # 8)
  /\ Binary64.fl64 (Binary64.fl64 0.1) == Binary64.fl64 0.1
  /\ Binary64.fl64 (Binary64.fl64 75.04 * 0.75) == Binary64.fl64 56.28.
Proof. repeat split; vm_compute; reflexivity. Qed.

Example unit_roundoff_power : Binary64.unit_roundoff == 2 ^ (-53).
Proof. reflexivity. Qed.

Lemma min_normal_le_1 : Binary64.min_normal <= 1.
Proof. apply Qle_bool_iff. vm_compute. reflexivity. Qed.

(** ** v_outcome_performance *)

Lemma in_v_outcome_performance gs oms r :
  In r (v_outcome_performance gs oms) <->
  exists om g, In om oms /\ In g gs
               /\ outcome_metrics.grant_id om = grants.grant_id g
               /\ r = outcome_row om g.
Proof.
  unfold v_outcome_performance. rewrite in_flat_map. split.
  - intros (om & Hom & Hr). apply in_map_iff in Hr as (g & <- & Hg).
    apply filter_In in Hg as (Hg & He). apply String.eqb_eq in He.
    exists om, g. auto.
  - intros (om & g & Hom & Hg & He & ->). exists om. split; [exact Hom|].
    apply in_map, filter_In. split; [exact Hg|]. apply String.eqb_eq, He.
Qed.

(** The CASE expression, read off the stored values; [b] is the
    double-precision product the second test compares with. *)
Lemma outcome_status_cases (om : outcome_metrics.row) :
  let t := outcome_metrics.target_value om in
  let b := Binary64.fl64 (t * 0.75) in
  match outcome_metrics.current_value om with
  | Some c =>
      (t <= c -> outcome_status om = "On Track")
      /\ (c < t -> b <= c -> outcome_status om = "Needs Attention")
      /\ (c < t -> c < b -> outcome_status om = "At Risk")
  | None => outcome_status om = "At Risk"
  end.
Proof.
  unfold outcome_status, Binary64.mul, Sql.ge, Sql.truthy.
  destruct om as [mid gid name t [c|] per unit];
    cbn [outcome_metrics.current_value outcome_metrics.target_value];
    [|reflexivity].
  destruct (Qle_bool t c) eqn:E1.
  - apply Qle_bool_iff in E1. repeat split; intros; try reflexivity; lra.
  - apply Qle_bool_false in E1.
    destruct (Qle_bool (Binary64.fl64 (t * 0.75)) c) eqn:E2.
    + apply Qle_bool_iff in E2. repeat split; intros; try reflexivity; lra.
    + apply Qle_bool_false in E2. repeat split; intros; try reflexivity; lra.
Qed.

(** C1 fails as stated, on both sides of the 75% boundary; the stored
    numbers are the doubles nearest to the decimals written.  Target
    75.04 with current 56.28: the stored current value is below 0.75
    times the stored target, and the status is Needs Attention, not At
    Risk.  Target 75.20 with current 56.40, exactly 75% of the target in
    decimals: the status is At Risk, not Needs Attention. *)
Lemma threshold_is_a_rounded_product :
  let m1 := Sample.metric "MET0001" "GR001" "Average Grade Improvement"
              (Binary64.fl64 75.04) (Some (Binary64.fl64 56.28)) in
  let m2 := Sample.metric "MET0002" "GR001" "Average Wage Increase"
              (Binary64.fl64 75.20) (Some (Binary64.fl64 56.40)) in
  exists r1 r2 c1,
    v_outcome_performance [Sample.bare_grant] [m1; m2] = [r1; r2]
    /\ OutcomePerformance.current_value r1 = Some c1
    /\ c1 < 0.75 * OutcomePerformance.target_value r1
    /\ OutcomePerformance.status r1 = "Needs Attention"
    /\ 56.40 == 0.75 * 75.20
    /\ OutcomePerformance.status r2 = "At Risk".
Proof.
  do 3 eexists. split; [reflexivity|]. split; [reflexivity|].
  split; [vm_compute; reflexivity|]. split; [vm_compute; reflexivity|].
  split; [reflexivity|]. vm_compute. reflexivity.
Qed.

(** C1, amended. Every row of the outcome-performance view has status On
    Track when current_value >= target_value; otherwise Needs Attention
    when current_value >= b, where b is the double-precision product
    target_value * 0.75, that is the binary64 number nearest to the exact
    product; otherwise At Risk, a NULL current_value included.  Exactly at
    the target the status is On Track and exactly at b it is Needs
    Attention.  When the exact product is at least 2^-1022, b lies within
    the relative distance 2^-53 of it. *)
Theorem outcome_status_double_thresholds :
  forall gs oms r,
    In r (v_outcome_performance gs oms) ->
    let t := OutcomePerformance.target_value r in
    let b := Binary64.fl64 (t * 0.75) in
    match OutcomePerformance.current_value r with
    | Some c =>
        (t <= c -> OutcomePerformance.status r = "On Track")
        /\ (c < t -> b <= c ->
            OutcomePerformance.status r = "Needs Attention")
        /\ (c < t -> c < b -> OutcomePerformance.status r = "At Risk")
    | None => OutcomePerformance.status r = "At Risk"
    end
    /\ (Binary64.min_normal <= t * 0.75 ->
        t * 0.75 - t * 0.75 * Binary64.unit_roundoff <= b
        /\ b <= t * 0.75 + t * 0.75 * Binary64.unit_roundoff).
Proof.
  intros gs oms r Hr.
  apply in_v_outcome_performance in Hr as (om & g & _ & _ & _ & ->).
  cbn [outcome_row OutcomePerformance.target_value
       OutcomePerformance.current_value OutcomePerformance.status].
  split; [apply outcome_status_cases|apply fl64_error].
Qed.

Lemma outcome_status_double_thresholds_witness :
  let gs := [Sample.grant "GR001" "Clinic Program" 100000 "2027-01-01"] in
  let oms := [Sample.metric "MET0001" "GR001" "Preventive Care Visits" 200 (Some 150)] in
  exists r, In r (v_outcome_performance gs oms)
            /\ OutcomePerformance.status r = "Needs Attention".
Proof.
  intros gs oms.
  exists (outcome_row (Sample.metric "MET0001" "GR001" "Preventive Care Visits" 200 (Some 150))
                      (Sample.grant "GR001" "Clinic Program" 100000 "2027-01-01")).
  assert (Hin : In (outcome_row (Sample.metric "MET0001" "GR001" "Preventive Care Visits" 200 (Some 150))
                      (Sample.grant "GR001" "Clinic Program" 100000 "2027-01-01"))
                   (v_outcome_performance gs oms)) by (simpl; auto).
  split; [exact Hin|].
  pose proof (outcome_status_double_thresholds gs oms _ Hin) as H.
  cbn [outcome_row OutcomePerformance.target_value
       OutcomePerformance.current_value OutcomePerformance.status
       Sample.metric outcome_metrics.target_value
       outcome_metrics.current_value] in H.
  destruct H as ((_ & H & _) & _).
  apply H; [reflexivity|]. apply Qle_bool_iff. vm_compute. reflexivity.
Defined.

(** The worked examples of the specification: target 200 with current
    150, 199 and 200. *)
Example outcome_examples :
  map (fun r => (OutcomePerformance.achievement_percentage r,
                 OutcomePerformance.status r))
      (v_outcome_performance [Sample.bare_grant]
         [Sample.metric "MET0001" "GR001" "Patients Served" 200 (Some 150);
          Sample.metric "MET0002" "GR001" "Patients Served" 200 (Some 199);
          Sample.metric "MET0003" "GR001" "Patients Served" 200 (Some 200)])
  = [(Some 75.00, "Needs Attention");
     (Some 99.50, "Needs Attention");
     (Some 100.00, "On Track")].
Proof. vm_compute. reflexivity. Qed.



Lemma achievement_percentage_defined (om : outcome_metrics.row) (c : Q) :
  0 < outcome_metrics.target_value om ->
  outcome_metrics.current_value om = Some c ->
  achievement_percentage om
  = Some (Sql.round_half_away (100 * c / outcome_metrics.target_value om) 2).
Proof.
  intros Ht Hc. unfold achievement_percentage. rewrite Hc. simpl.
  destruct (Qeq_bool (outcome_metrics.target_value om) 0) eqn:E; [|reflexivity].
  apply Qeq_bool_iff in E. rewrite E in Ht. discriminate.
Qed.




Lemma filter_all_false_length {A : Type} (p : A -> bool) (l : list A) :
  (forall x, In x l -> p x = false) -> List.length (filter p l) = 0%nat.
Proof.
  induction l as [|x r IH]; intro H; simpl; [reflexivity|].
  rewrite (H x (or_introl eq_refl)). apply IH.
  intros y Hy. apply H. right. exact Hy.
Qed.

(** ** ORDER BY *)

Section OrderByFacts.
Context {A : Type}.
Variable leb : A -> A -> bool.
Hypothesis leb_total : forall a b, leb a b = true \/ leb b a = true.

Let le (a b : A) : Prop := leb a b = true.

Lemma insert_row_perm (x : A) (l : list A) :
  Permutation (insert_row leb x l) (x :: l).
Proof.
  induction l as [|y r IH]; simpl.
  - apply Permutation_refl.
  - destruct (leb x y).
    + apply Permutation_refl.
    + eapply perm_trans; [apply perm_skip, IH|apply perm_swap].
Qed.

Lemma order_by_perm (l : list A) : Permutation (order_by leb l) l.
Proof.
  induction l as [|x r IH]; simpl.
  - apply perm_nil.
  - eapply perm_trans; [apply insert_row_perm|apply perm_skip, IH].
Qed.

Lemma insert_row_hd (x y : A) (l : list A) :
  le y x -> HdRel le y l -> HdRel le y (insert_row leb x l).
Proof.
  intros Hyx Hl. destruct l as [|z r]; simpl.
  - constructor. exact Hyx.
  - destruct (leb x z); constructor; [exact Hyx|].
    inversion Hl; assumption.
Qed.

Lemma insert_row_sorted (x : A) (l : list A) :
  Sorted le l -> Sorted le (insert_row leb x l).
Proof.
  induction 1 as [|y r Hs IH Hhd]; simpl.
  - repeat constructor.
  - destruct (leb x y) eqn:E.
    + constructor; [constructor; assumption|constructor; exact E].
    + constructor; [exact IH|].
      apply insert_row_hd; [|exact Hhd].
      destruct (leb_total x y) as [H|H]; [congruence|exact H].
Qed.

Lemma order_by_sorted (l : list A) : Sorted le (order_by leb l).
Proof.
  induction l as [|x r IH]; simpl.
  - constructor.
  - apply insert_row_sorted, IH.
Qed.
End OrderByFacts.

Lemma null_leb_total (a b : option Q) :
  Sql.null_leb a b = true \/ Sql.null_leb b a = true.
Proof.
  destruct a as [x|], b as [y|]; simpl; auto.
  destruct (Qle_bool x y) eqn:E; [auto|right].
  apply Qle_bool_false in E. apply Qle_bool_iff. lra.
Qed.

Lemma null_leb_trans (a b c : option Q) :
  Sql.null_leb a b = true -> Sql.null_leb b c = true -> Sql.null_leb a c = true.
Proof.
  destruct a as [x|], b as [y|], c as [z|]; simpl; try congruence.
  rewrite !Qle_bool_iff. intros; lra.
Qed.

Lemma order_by_desc_descending {A : Type} (key : A -> option Q) (l : list A) :
  descending key (order_by (desc key) l).
Proof.
  unfold descending. apply Sorted_StronglySorted.
  - intros a b c Hab Hbc. eapply null_leb_trans; eassumption.
  - apply (order_by_sorted (desc key)).
    intros a b. unfold desc. apply null_leb_total.
Qed.

(** ** v_compliance_alerts *)

Section AlertFacts.
Variable julianday : string -> option Q.

Lemma report_overdue_iff (r : reports.row) :
  report_overdue r = true <-> reports.status r = Some "Overdue".
Proof.
  unfold report_overdue. destruct (reports.status r) as [s|]; simpl.
  - destruct (String.eqb s "Overdue") eqn:E.
    + apply String.eqb_eq in E. subst. tauto.
    + apply String.eqb_neq in E. split; [discriminate|congruence].
  - split; discriminate.
Qed.

Lemma deliverable_overdue_iff (d : deliverables.row) :
  deliverable_overdue d = true <-> deliverables.status d = Some "Overdue".
Proof.
  unfold deliverable_overdue. destruct (deliverables.status d) as [s|]; simpl.
  - destruct (String.eqb s "Overdue") eqn:E.
    + apply String.eqb_eq in E. subst. tauto.
    + apply String.eqb_neq in E. split; [discriminate|congruence].
  - split; discriminate.
Qed.

Lemma overspent_iff (bc : budget_categories.row) :
  overspent bc = true <->
  exists s, budget_categories.spent_amount bc = Some s
            /\ budget_categories.budgeted_amount bc < s.
Proof.
  unfold overspent. destruct (budget_categories.spent_amount bc) as [s|].
  - rewrite truthy_gt. split.
    + intro H. exists s. auto.
    + intros (s' & [= <-] & H). exact H.
  - simpl. split; [discriminate|]. intros (s & [=] & _).
Qed.

Lemma in_v_compliance_alerts rs ds bcs a :
  In a (v_compliance_alerts julianday rs ds bcs) <->
  (exists r, In r rs /\ report_overdue r = true
             /\ a = report_alert julianday r)
  \/ (exists d, In d ds /\ deliverable_overdue d = true
                /\ a = deliverable_alert julianday d)
  \/ (exists bc, In bc bcs /\ overspent bc = true
                 /\ a = budget_alert bc).
Proof.
  unfold v_compliance_alerts. rewrite !in_app_iff, !in_map_iff.
  setoid_rewrite filter_In.
  split.
  - intros [(r & <- & Hr & Ho)|[(d & <- & Hd & Ho)|(bc & <- & Hb & Ho)]];
      [left|right; left|right; right]; eauto.
  - intros [(r & Hr & Ho & ->)|[(d & Hd & Ho & ->)|(bc & Hb & Ho & ->)]];
      [left|right; left|right; right]; eauto.
Qed.

Lemma percent_over_value (bc : budget_categories.row) (s : Q) :
  budget_categories.spent_amount bc = Some s ->
  let b := budget_categories.budgeted_amount bc in
  percent_over bc
  = if Qeq_bool b 0 then None
    else Some (Sql.round_half_away (100 * (s - b) / b) 2).
Proof.
  intros Hs b. unfold percent_over. rewrite Hs. simpl. fold b.
  destruct (Qeq_bool b 0); reflexivity.
Qed.
End AlertFacts.

(** C4. The alert view has exactly one row per Overdue report, per Overdue
    deliverable and per overspent budget category: its length is the sum
    of the three counts, nothing is merged across the sources. *)
Theorem alert_count_is_sum_of_sources :
  forall julianday rs ds bcs,
    List.length (v_compliance_alerts julianday rs ds bcs)
    = (List.length (filter report_overdue rs)
       + List.length (filter deliverable_overdue ds)
       + List.length (filter overspent bcs))%nat
    /\ (forall r, report_overdue r = true <-> reports.status r = Some "Overdue")
    /\ (forall d, deliverable_overdue d = true
                  <-> deliverables.status d = Some "Overdue")
    /\ (forall bc, overspent bc = true
                   <-> exists s, budget_categories.spent_amount bc = Some s
                                 /\ budget_categories.budgeted_amount bc < s).
Proof.
  intros jd rs ds bcs. split; [|split; [|split]].
  - unfold v_compliance_alerts. rewrite !length_app, !length_map. lia.
  - apply report_overdue_iff.
  - apply deliverable_overdue_iff.
  - apply overspent_iff.
Qed.

Lemma alert_count_is_sum_of_sources_witness :
  List.length
    (v_compliance_alerts Sample.julianday (db_reports Sample.three_alerts)
       (db_deliverables Sample.three_alerts)
       (db_budget_categories Sample.three_alerts))
  = (1 + 1 + 1)%nat.
Proof.
  destruct (alert_count_is_sum_of_sources Sample.julianday
              (db_reports Sample.three_alerts)
              (db_deliverables Sample.three_alerts)
              (db_budget_categories Sample.three_alerts)) as (Hlen & _).
  rewrite Hlen. reflexivity.
Defined.





(** ** load_compliance_alerts *)

Lemma in_alerts_join_grants cas gs row :
  In row (alerts_join_grants cas gs) <->
  exists ca g, In ca cas /\ In g gs
               /\ ComplianceAlert.grant_id ca = grants.grant_id g
               /\ row = {| AlertListing.alert := ca;
                           AlertListing.grant_name := grants.grant_name g;
                           AlertListing.funder_name := grants.funder_name g |}.
Proof.
  unfold alerts_join_grants. rewrite in_flat_map. split.
  - intros (ca & Hca & Hr). apply in_map_iff in Hr as (g & <- & Hg).
    apply filter_In in Hg as (Hg & He). apply String.eqb_eq in He.
    exists ca, g. auto.
  - intros (ca & g & Hca & Hg & He & ->). exists ca. split; [exact Hca|].
    apply in_map_iff. exists g. split; [reflexivity|].
    apply filter_In. split; [exact Hg|]. apply String.eqb_eq, He.
Qed.

(** C5. For an available database the alert loader returns one list; the
    list is ordered by descending days_overdue (NULL last) and is a
    rearrangement of the alert view joined with grants.  The sort column
    holds julianday('now') - julianday(due_date) for Overdue Report and
    Overdue Deliverable rows and the percentage over budget for Budget
    Overspent rows. *)
Theorem alerts_sorted_by_descending_severity :
  forall julianday db,
    exists rows,
      load_compliance_alerts julianday (Some db) = Return rows
      /\ descending AlertListing.days_overdue rows
      /\ Permutation rows
           (alerts_join_grants
              (v_compliance_alerts julianday (db_reports db)
                 (db_deliverables db) (db_budget_categories db))
              (db_grants db))
      /\ forall row, In row rows ->
           let a := AlertListing.alert row in
           (exists r, In r (db_reports db)
                      /\ reports.status r = Some "Overdue"
                      /\ ComplianceAlert.alert_type a = "Overdue Report"
                      /\ AlertListing.days_overdue row
                         = Sql.sub (julianday "now") (julianday (reports.due_date r)))
           \/ (exists d, In d (db_deliverables db)
                         /\ deliverables.status d = Some "Overdue"
                         /\ ComplianceAlert.alert_type a = "Overdue Deliverable"
                         /\ AlertListing.days_overdue row
                            = Sql.sub (julianday "now")
                                      (julianday (deliverables.due_date d)))
           \/ (exists bc, In bc (db_budget_categories db)
                          /\ overspent bc = true
                          /\ ComplianceAlert.alert_type a = "Budget Overspent"
                          /\ AlertListing.days_overdue row = percent_over bc).
Proof.
  intros jd db. eexists. split; [reflexivity|]. split; [|split].
  - apply order_by_desc_descending.
  - apply order_by_perm.
  - intros row Hrow a.
    apply (Permutation_in _ (order_by_perm _ _)) in Hrow.
    apply in_alerts_join_grants in Hrow as (ca & g & Hca & _ & _ & ->).
    subst a. unfold AlertListing.days_overdue. simpl.
    apply in_v_compliance_alerts in Hca
      as [(r & Hr & Ho & ->)|[(d & Hd & Ho & ->)|(bc & Hb & Ho & ->)]].
    + left. exists r. apply report_overdue_iff in Ho. auto.
    + right; left. exists d. apply deliverable_overdue_iff in Ho. auto.
    + right; right. exists bc. auto.
Qed.

Lemma alerts_sorted_by_descending_severity_witness :
  exists rows,
    load_compliance_alerts Sample.julianday (Some Sample.three_alerts)
    = Return rows
    /\ descending AlertListing.days_overdue rows
    /\ map (fun row => (ComplianceAlert.alert_type (AlertListing.alert row),
                        AlertListing.days_overdue row)) rows
       = [("Budget Overspent", Some 12.50);
          ("Overdue Deliverable", Some 10.5);
          ("Overdue Report", Some 3.5)].
Proof.
  destruct (alerts_sorted_by_descending_severity Sample.julianday
              Sample.three_alerts) as (rows & Hload & Hsorted & _).
  exists rows. split; [exact Hload|]. split; [exact Hsorted|].
  injection Hload as <-. reflexivity.
Defined.

(** The join with grants keeps each alert once when grant_id is unique in
    [grants] and every alert's grant exists, so the loaded list then has
    the length of the view. *)
Lemma matching_grant_unique gs k :
  NoDup (map grants.grant_id gs) ->
  In k (map grants.grant_id gs) ->
  List.length (filter (fun g => String.eqb k (grants.grant_id g)) gs) = 1%nat.
Proof.
  induction gs as [|g0 r IH]; intros Hnd Hin; [destruct Hin|].
  simpl in *. inversion Hnd as [|x xs Hnotin Hnd']; subst.
  destruct (String.eqb k (grants.grant_id g0)) eqn:E.
  - apply String.eqb_eq in E. subst k. simpl. f_equal.
    rewrite filter_all_false_length; [reflexivity|].
    intros g Hg. apply String.eqb_neq. intro He. apply Hnotin.
    rewrite He. apply in_map. exact Hg.
  - apply String.eqb_neq in E. destruct Hin as [He|Hin]; [congruence|].
    apply IH; assumption.
Qed.

(** When grant_id is unique in [grants] and every alert's grant exists,
    the dashboard's alert list has as many rows as the alert view. *)
Lemma loaded_alert_count julianday db rows :
  NoDup (map grants.grant_id (db_grants db)) ->
  (forall a, In a (v_compliance_alerts julianday (db_reports db)
                     (db_deliverables db) (db_budget_categories db)) ->
             In (ComplianceAlert.grant_id a)
                (map grants.grant_id (db_grants db))) ->
  load_compliance_alerts julianday (Some db) = Return rows ->
  List.length rows
  = List.length (v_compliance_alerts julianday (db_reports db)
                   (db_deliverables db) (db_budget_categories db)).
Proof.
  intros Hpk Href Hload. injection Hload as <-.
  rewrite (Permutation_length (order_by_perm _ _)).
  unfold alerts_join_grants.
  induction (v_compliance_alerts julianday (db_reports db)
               (db_deliverables db) (db_budget_categories db)) as [|a l IH].
  - reflexivity.
  - simpl. rewrite length_app, length_map.
    rewrite (matching_grant_unique _ _ Hpk (Href a (or_introl eq_refl))).
    rewrite IH; [reflexivity|]. intros b Hb. apply Href. right. exact Hb.
Qed.

(** C6 fails as stated, in both halves.  An Overdue report due
    2026-11-01, read at noon UTC of 2026-11-04, gets days_overdue 3.5,
    which is not a whole number of days.  And a generator that runs at
    06:00 of 2026-11-04 in a zone ten hours ahead of UTC (20:00 UTC of
    2026-11-03) may give Overdue to a report due 2026-11-04; read one
    hour later, its alert has a negative days_overdue, -1/8. *)
Lemma overdue_days_fractional_or_negative :
  (exists a d,
     v_compliance_alerts Sample.julianday [Sample.late_report] [] [] = [a]
     /\ ComplianceAlert.days_overdue a = Some d
     /\ d == 3.5
     /\ ~ d == inject_Z (Qfloor d))
  /\ (let gen := {| Clock.utc := 2461348 + (1 # 3);
                    Clock.utc_offset := 10 # 24 |} in
      let view := {| Clock.utc := 2461348 + (3 # 8);
                     Clock.utc_offset := 10 # 24 |} in
      let r := Sample.report "REP0002" "GR001" "2026-11-04" (Some "Overdue") in
      exists due a d,
        Clock.utc gen <= Clock.utc view
        /\ Julian.julianday (Clock.julianday_now view) (reports.due_date r)
           = Some due
        /\ In "Overdue"
              (Generator.generate_reports_status due (Clock.datetime_now gen))
        /\ v_compliance_alerts (Julian.julianday (Clock.julianday_now view))
             [r] [] [] = [a]
        /\ ComplianceAlert.days_overdue a = Some d
        /\ d == - (1 # 8)
        /\ d < 0).
Proof.
  split.
  - do 2 eexists. split; [reflexivity|]. split; [reflexivity|].
    split; [reflexivity|]. intro H. vm_compute in H. discriminate.
  - do 3 eexists. split; [discriminate|]. split; [reflexivity|].
    split; [vm_compute; auto|]. split; [reflexivity|].
    split; [reflexivity|]. split; vm_compute; reflexivity.
Qed.

Lemma py_int_floor (x : Q) : 0 <= x -> py_int x = Qfloor x.
Proof.
  intro H. unfold py_int. apply Qle_bool_iff in H. rewrite H. reflexivity.
Qed.

Lemma generate_reports_overdue_past (due now : Q) :
  In "Overdue" (Generator.generate_reports_status due now) -> due < now.
Proof.
  unfold Generator.generate_reports_status.
  destruct (Sql.Qltb due (now - 15)) eqn:E1.
  - simpl. intros [H|[]]. discriminate.
  - destruct (Sql.Qltb due now) eqn:E2.
    + intros _. apply Qltb_lt, E2.
    + simpl. intros [H|[]]. discriminate.
Qed.

Lemma generate_deliverables_overdue_past (due now : Q) :
  In "Overdue" (Generator.generate_deliverables_status due now) -> due < now.
Proof.
  unfold Generator.generate_deliverables_status.
  destruct (Sql.Qltb due (now - 30)) eqn:E1.
  - simpl. intros [H|[H|[H|[H|[]]]]]; discriminate.
  - destruct (Sql.Qltb due now) eqn:E2.
    + intros _. apply Qltb_lt, E2.
    + simpl. intros [H|[H|[]]]; discriminate.
Qed.

(** C6, amended. Every report and every deliverable whose status is
    Overdue has a row in the alert view, and when its stored due date
    denotes the day number [due], days_overdue is the UTC clock of the
    read minus [due]: the exact, fractional difference, not its floor.
    If moreover the generator could give it the Overdue status (its due
    date was before the generator's local wall clock), the view is read
    no earlier than the generator ran, and the generator's zone is not
    ahead of UTC, then days_overdue is positive and the integer the alert
    box prints, int(days_overdue), is its floor. *)
Theorem overdue_alert_elapsed_days :
  forall (gen view : Clock.reading) rs ds bcs,
    let julianday := Julian.julianday (Clock.julianday_now view) in
    (forall r due,
       In r rs -> reports.status r = Some "Overdue" ->
       julianday (reports.due_date r) = Some due ->
       exists a, In a (v_compliance_alerts julianday rs ds bcs)
                 /\ ComplianceAlert.alert_type a = "Overdue Report"
                 /\ ComplianceAlert.grant_id a = reports.grant_id r
                 /\ ComplianceAlert.item_name a = reports.report_type r
                 /\ ComplianceAlert.days_overdue a
                    = Some (Clock.utc view - due)
                 /\ (In "Overdue"
                        (Generator.generate_reports_status due
                           (Clock.datetime_now gen)) ->
                     Clock.utc gen <= Clock.utc view ->
                     Clock.utc_offset gen <= 0 ->
                     0 < Clock.utc view - due
                     /\ py_int (Clock.utc view - due)
                        = Qfloor (Clock.utc view - due)))
    /\ (forall d due,
          In d ds -> deliverables.status d = Some "Overdue" ->
          julianday (deliverables.due_date d) = Some due ->
          exists a, In a (v_compliance_alerts julianday rs ds bcs)
                    /\ ComplianceAlert.alert_type a = "Overdue Deliverable"
                    /\ ComplianceAlert.grant_id a = deliverables.grant_id d
                    /\ ComplianceAlert.item_name a
                       = deliverables.deliverable_name d
                    /\ ComplianceAlert.days_overdue a
                       = Some (Clock.utc view - due)
                    /\ (In "Overdue"
                           (Generator.generate_deliverables_status due
                              (Clock.datetime_now gen)) ->
                        Clock.utc gen <= Clock.utc view ->
                        Clock.utc_offset gen <= 0 ->
                        0 < Clock.utc view - due
                        /\ py_int (Clock.utc view - due)
                           = Qfloor (Clock.utc view - due))).
Proof.
  intros gen view rs ds bcs jd.
  assert (Hnow : jd "now" = Some (Clock.utc view)) by reflexivity.
  split.
  - intros r due Hr Hs Hdue. exists (report_alert jd r). split.
    + apply in_v_compliance_alerts. left. exists r.
      repeat split; [exact Hr|]. apply report_overdue_iff, Hs.
    + cbn [report_alert ComplianceAlert.alert_type ComplianceAlert.grant_id
           ComplianceAlert.item_name ComplianceAlert.days_overdue].
      repeat split.
      * unfold days_since. rewrite Hnow, Hdue. reflexivity.
      * apply generate_reports_overdue_past in H.
        unfold Clock.datetime_now in H. lra.
      * apply py_int_floor.
        apply generate_reports_overdue_past in H.
        unfold Clock.datetime_now in H. lra.
  - intros d due Hd Hs Hdue. exists (deliverable_alert jd d). split.
    + apply in_v_compliance_alerts. right; left. exists d.
      repeat split; [exact Hd|]. apply deliverable_overdue_iff, Hs.
    + cbn [deliverable_alert ComplianceAlert.alert_type
           ComplianceAlert.grant_id ComplianceAlert.item_name
           ComplianceAlert.days_overdue].
      repeat split.
      * unfold days_since. rewrite Hnow, Hdue. reflexivity.
      * apply generate_deliverables_overdue_past in H.
        unfold Clock.datetime_now in H. lra.
      * apply py_int_floor.
        apply generate_deliverables_overdue_past in H.
        unfold Clock.datetime_now in H. lra.
Qed.

Lemma overdue_alert_elapsed_days_witness :
  let gen := {| Clock.utc := 2461346; Clock.utc_offset := - (5 # 24) |} in
  let view := {| Clock.utc := Sample.noon; Clock.utc_offset := 0 |} in
  exists a,
    In a (v_compliance_alerts (Julian.julianday (Clock.julianday_now view))
            [Sample.late_report] [] [])
    /\ ComplianceAlert.alert_type a = "Overdue Report"
    /\ ComplianceAlert.days_overdue a = Some (Sample.noon - 2461345.5)
    /\ 0 < Sample.noon - 2461345.5
    /\ py_int (Sample.noon - 2461345.5) = 3%Z.
Proof.
  intros gen view.
  destruct (overdue_alert_elapsed_days gen view [Sample.late_report] [] [])
    as (Hrep & _).
  destruct (Hrep Sample.late_report 2461345.5)
    as (a & Hin & Hty & _ & _ & Hd & Hpos).
  - simpl. auto.
  - reflexivity.
  - reflexivity.
  - destruct Hpos as (Hp & Hint).
    + vm_compute. auto.
    + discriminate.
    + discriminate.
    + exists a. split; [exact Hin|]. split; [exact Hty|].
      split; [exact Hd|]. split; [exact Hp|].
      etransitivity; [exact Hint|reflexivity].
Defined.




(** ** SUM *)

Lemma fold_sum_all_null (l : list (option Q)) (acc : option Q) :
  (forall x, In x l -> x = None) -> fold_left Sql.sum_step l acc = acc.
Proof.
  revert acc. induction l as [|x r IH]; intros acc H; simpl; [reflexivity|].
  rewrite (H x (or_introl eq_refl)). simpl. apply IH.
  intros y Hy. apply H. right. exact Hy.
Qed.

Lemma sum_all_null (l : list (option Q)) :
  (forall x, In x l -> x = None) -> Sql.sum l = None.
Proof. apply fold_sum_all_null. Qed.

(** The total of the non-NULL entries. *)
Lemma fold_sum_started (l : list (option Q)) (a : Q) :
  exists s, fold_left Sql.sum_step l (Some a) = Some s
            /\ s == a + fold_right (fun x acc => match x with
                                                 | Some v => v + acc
                                                 | None => acc
                                                 end) 0 l.
Proof.
  revert a. induction l as [|[v|] r IH]; intro a; simpl.
  - exists a. split; [reflexivity|lra].
  - destruct (IH (a + v)) as (s & Hs & He). exists s. split; [exact Hs|lra].
  - apply IH.
Qed.

Lemma sum_some (l : list (option Q)) (v : Q) :
  In (Some v) l ->
  exists s, Sql.sum l = Some s
            /\ s == fold_right (fun x acc => match x with
                                             | Some v => v + acc
                                             | None => acc
                                             end) 0 l.
Proof.
  unfold Sql.sum. induction l as [|[w|] r IH]; intro Hin; simpl.
  - destruct Hin.
  - destruct (fold_sum_started r (0 + w)) as (s & Hs & He).
    exists s. split; [exact Hs|lra].
  - destruct Hin as [H|H]; [discriminate|]. apply IH, H.
Qed.

Lemma sum_spent_amount_fold (cats : list budget_categories.row) :
  fold_right (fun x acc => match x with
                           | Some v => v + acc
                           | None => acc
                           end) 0 (map budget_categories.spent_amount cats)
  = sum_spent_amount cats.
Proof.
  induction cats as [|bc r IH]; simpl; [reflexivity|].
  rewrite IH. reflexivity.
Qed.

Lemma div_by_zero (x : option Q) (y : Q) : y == 0 -> Sql.div x (Some y) = None.
Proof.
  intro H. destruct x as [v|]; simpl; [|reflexivity].
  apply Qeq_bool_iff in H. rewrite H. reflexivity.
Qed.

(** ** v_grant_summary *)

Lemma filter_all_true {A : Type} (p : A -> bool) (l : list A) :
  (forall x, In x l -> p x = true) -> filter p l = l.
Proof.
  induction l as [|x r IH]; intro H; simpl; [reflexivity|].
  rewrite (H x (or_introl eq_refl)). f_equal. apply IH.
  intros y Hy. apply H. right. exact Hy.
Qed.

Lemma filter_all_false {A : Type} (p : A -> bool) (l : list A) :
  (forall x, In x l -> p x = false) -> filter p l = [].
Proof.
  induction l as [|x r IH]; intro H; simpl; [reflexivity|].
  rewrite (H x (or_introl eq_refl)). apply IH.
  intros y Hy. apply H. right. exact Hy.
Qed.

Lemma filter_head {A : Type} (p : A -> bool) (l : list A) (x : A) (r : list A) :
  filter p l = x :: r -> p x = true /\ In x l.
Proof.
  intro H. assert (Hin : In x (filter p l)) by (rewrite H; left; reflexivity).
  apply filter_In in Hin. tauto.
Qed.

Section SummaryFacts.
Variable julianday : string -> option Q.

Lemma in_join_grant bcs g jr :
  In jr (join_grant bcs g) ->
  fst jr = g
  /\ match snd jr with
     | Some bc => In bc (categories_of g bcs)
     | None => categories_of g bcs = []
     end.
Proof.
  unfold join_grant. destruct (categories_of g bcs) as [|bc0 m] eqn:E.
  - intros [<-|[]]. simpl. auto.
  - intro H. apply in_map_iff in H as (bc & <- & Hbc). simpl. auto.
Qed.

Lemma join_grant_first bcs g :
  exists o rest, join_grant bcs g = (g, o) :: rest.
Proof.
  unfold join_grant. destruct (categories_of g bcs) as [|bc0 m]; simpl; eauto.
Qed.

Lemma join_grant_spent bcs g :
  Sql.sum (map joined_spent (join_grant bcs g))
  = Sql.sum (map budget_categories.spent_amount (categories_of g bcs)).
Proof.
  unfold join_grant. destruct (categories_of g bcs) as [|bc0 m]; [reflexivity|].
  rewrite map_map. reflexivity.
Qed.

Lemma in_left_join gs bcs jr :
  In jr (left_join gs bcs) <-> exists g, In g gs /\ In jr (join_grant bcs g).
Proof. unfold left_join. apply in_flat_map. Qed.

Lemma in_categories_of g bcs bc :
  In bc (categories_of g bcs) <->
  In bc bcs /\ budget_categories.grant_id bc = grants.grant_id g.
Proof.
  unfold categories_of. rewrite filter_In, String.eqb_eq.
  split; intros (H1 & H2); auto.
Qed.

Lemma in_v_grant_summary gs bcs row :
  In row (v_grant_summary julianday gs bcs) <->
  exists k, In k (group_keys (left_join gs bcs))
            /\ summary_row julianday (group_rows k (left_join gs bcs)) = Some row.
Proof.
  unfold v_grant_summary. rewrite in_flat_map. split.
  - intros (k & Hk & H). exists k. split; [exact Hk|].
    destruct (summary_row julianday (group_rows k (left_join gs bcs))) as [r|];
      [|destruct H].
    destruct H as [<-|[]]. reflexivity.
  - intros (k & Hk & H). exists k. split; [exact Hk|]. rewrite H. left. reflexivity.
Qed.

(** What a row of the view holds, in terms of the group it aggregates. *)
Lemma v_grant_summary_row gs bcs row :
  In row (v_grant_summary julianday gs bcs) ->
  exists g,
    In g gs
    /\ GrantSummary.grant_id row = grants.grant_id g
    /\ GrantSummary.total_amount row = grants.total_amount g
    /\ summary_row julianday
         (group_rows (grants.grant_id g) (left_join gs bcs)) = Some row
    /\ GrantSummary.total_spent row
       = Sql.sum (map joined_spent
                      (group_rows (grants.grant_id g) (left_join gs bcs)))
    /\ GrantSummary.remaining_budget row
       = Sql.sub (Some (grants.total_amount g)) (GrantSummary.total_spent row)
    /\ GrantSummary.spent_percentage row
       = Sql.round (Sql.div (Sql.mul (Some 100) (GrantSummary.total_spent row))
                            (Some (grants.total_amount g))) 2.
Proof.
  intro H. apply in_v_grant_summary in H as (k & _ & Hrow).
  destruct (group_rows k (left_join gs bcs)) as [|[g o] rest] eqn:E;
    [discriminate|].
  unfold group_rows in E. pose proof (filter_head _ _ _ _ E) as (Hk & Hin).
  simpl in Hk. apply String.eqb_eq in Hk.
  apply in_left_join in Hin as (g' & Hg' & Hj).
  apply in_join_grant in Hj as (Hfst & _). simpl in Hfst. subst g'.
  exists g. split; [exact Hg'|].
  assert (Hgrp : group_rows (grants.grant_id g) (left_join gs bcs) = (g, o) :: rest)
    by (unfold group_rows; rewrite Hk; exact E).
  rewrite Hgrp. simpl in Hrow. injection Hrow as <-. simpl.
  repeat split; reflexivity.
Qed.

Lemma in_group_keys gs bcs g :
  In g gs -> In (grants.grant_id g) (group_keys (left_join gs bcs)).
Proof.
  intro Hg. unfold group_keys. apply nodup_In.
  destruct (join_grant_first bcs g) as (o & rest & Hj).
  apply in_map_iff. exists (g, o). split; [reflexivity|].
  apply in_left_join. exists g. split; [exact Hg|]. rewrite Hj. left. reflexivity.
Qed.

(** Every grant has a row in the view. *)
Lemma v_grant_summary_has_row gs bcs g :
  In g gs ->
  exists row, In row (v_grant_summary julianday gs bcs)
              /\ GrantSummary.grant_id row = grants.grant_id g.
Proof.
  intro Hg. pose proof (in_group_keys gs bcs g Hg) as Hk.
  destruct (group_rows (grants.grant_id g) (left_join gs bcs))
    as [|[g' o'] rest] eqn:E.
  - exfalso. destruct (join_grant_first bcs g) as (o & rest & Hj).
    assert (Hin : In (g, o) (group_rows (grants.grant_id g) (left_join gs bcs))).
    { unfold group_rows. apply filter_In. split.
      - apply in_left_join. exists g. split; [exact Hg|]. rewrite Hj. left. reflexivity.
      - simpl. apply String.eqb_refl. }
    rewrite E in Hin. destruct Hin.
  - pose proof (filter_head _ _ _ _ E) as (Hk' & _). simpl in Hk'.
    apply String.eqb_eq in Hk'.
    eexists. split.
    + apply in_v_grant_summary. exists (grants.grant_id g).
      split; [exact Hk|]. rewrite E. simpl. reflexivity.
    + simpl. exact Hk'.
Qed.

(** Rows are determined by their key. *)
Lemma v_grant_summary_key_unique gs bcs r1 r2 :
  In r1 (v_grant_summary julianday gs bcs) ->
  In r2 (v_grant_summary julianday gs bcs) ->
  GrantSummary.grant_id r1 = GrantSummary.grant_id r2 -> r1 = r2.
Proof.
  intros H1 H2 He.
  apply v_grant_summary_row in H1 as (g1 & _ & Hk1 & _ & Hs1 & _).
  apply v_grant_summary_row in H2 as (g2 & _ & Hk2 & _ & Hs2 & _).
  rewrite <- Hk1 in Hs1. rewrite <- Hk2 in Hs2. rewrite He in Hs1. congruence.
Qed.

(** Under the primary key of [grants], the group of a grant is that
    grant's own joined rows. *)
Lemma group_rows_primary_key gs bcs g :
  NoDup (map grants.grant_id gs) -> In g gs ->
  group_rows (grants.grant_id g) (left_join gs bcs) = join_grant bcs g.
Proof.
  unfold group_rows, left_join.
  induction gs as [|g0 r IH]; intros Hnd Hg; [destruct Hg|].
  simpl in *. inversion Hnd as [|k ks Hnotin Hnd']; subst.
  rewrite filter_app. destruct Hg as [->|Hg].
  - rewrite filter_all_true, filter_all_false; [apply app_nil_r| |].
    + intros jr Hjr. apply in_flat_map in Hjr as (g' & Hg' & Hj).
      apply in_join_grant in Hj as (Hfst & _). rewrite Hfst.
      apply String.eqb_neq. intro He. apply Hnotin. rewrite <- He.
      apply in_map. exact Hg'.
    + intros jr Hjr. apply in_join_grant in Hjr as (Hfst & _). rewrite Hfst.
      apply String.eqb_refl.
  - rewrite filter_all_false, IH; [reflexivity|exact Hnd'|exact Hg|].
    intros jr Hjr. apply in_join_grant in Hjr as (Hfst & _). rewrite Hfst.
    apply String.eqb_neq. intro He. apply Hnotin. rewrite He.
    apply in_map. exact Hg.
Qed.

End SummaryFacts.

(** The worked example of the specification: total_amount 100000 and
    categories that spent 45000 together. *)
Example grant_summary_example :
  map (fun row => (GrantSummary.total_spent row,
                   GrantSummary.remaining_budget row,
                   GrantSummary.spent_percentage row,
                   GrantSummary.days_remaining row))
      (v_grant_summary Sample.julianday [Sample.bare_grant]
         [Sample.category "BC0001" "GR001" "Personnel Salaries" 50000 (Some 40000);
          Sample.category "BC0002" "GR001" "Travel" 5000 (Some 5000)])
  = [(Some 45000, Some 55000, Some 45.00, Some 57.5)].
Proof. reflexivity. Qed.

(** C2 fails as stated: a grant of total_amount 0 with a category that
    spent 50 gets a NULL spent_percentage, and a metric of target_value 0
    a NULL achievement_percentage; neither is 0. *)
Lemma zero_denominator_yields_null :
  exists row r,
    v_grant_summary Sample.julianday [Sample.zero_grant]
      [Sample.category "BC0001" "GR002" "Travel" 100 (Some 50)] = [row]
    /\ GrantSummary.total_amount row == 0
    /\ GrantSummary.spent_percentage row = None
    /\ GrantSummary.spent_percentage row <> Some 0
    /\ v_outcome_performance [Sample.zero_grant]
         [Sample.metric "MET0001" "GR002" "Meals Distributed" 0 (Some 5)] = [r]
    /\ OutcomePerformance.target_value r == 0
    /\ OutcomePerformance.achievement_percentage r = None
    /\ OutcomePerformance.achievement_percentage r <> Some 0.
Proof.
  do 2 eexists. split; [reflexivity|]. simpl.
  repeat split; try reflexivity; discriminate.
Qed.

(** C2, amended. No ratio with a zero denominator raises: for an
    available database the loaders return normally, and the ratio is NULL
    (not 0): spent_percentage is NULL in the row of a grant whose
    total_amount is 0, achievement_percentage is NULL in the row of a
    metric whose target_value is 0. *)
Theorem zero_denominator_ratio_is_null :
  forall julianday db,
    (exists rows,
        load_grant_summary julianday (Some db) = Return rows
        /\ forall row, In row rows ->
             GrantSummary.total_amount row == 0 ->
             GrantSummary.spent_percentage row = None)
    /\ (exists rows,
           load_outcome_performance (Some db) = Return rows
           /\ forall r, In r rows ->
                OutcomePerformance.target_value r == 0 ->
                OutcomePerformance.achievement_percentage r = None).
Proof.
  intros jd db. split; (eexists; split; [reflexivity|]).
  - intros row Hrow Hz.
    apply (Permutation_in _ (order_by_perm (asc GrantSummary.days_remaining) _))
      in Hrow.
    apply v_grant_summary_row in Hrow as (g & _ & _ & Ht & _ & _ & _ & Hp).
    rewrite Hp. rewrite div_by_zero; [reflexivity|]. rewrite <- Ht. exact Hz.
  - intros r Hr Hz.
    apply (Permutation_in _
             (order_by_perm (desc OutcomePerformance.achievement_percentage) _))
      in Hr.
    apply in_v_outcome_performance in Hr as (om & g & _ & _ & _ & ->).
    simpl in *. unfold achievement_percentage.
    rewrite div_by_zero; [reflexivity|exact Hz].
Qed.

Lemma zero_denominator_ratio_is_null_witness :
  exists rows r,
    load_outcome_performance
      (Some {| db_grants := [Sample.zero_grant];
               db_budget_categories := [];
               db_deliverables := [];
               db_outcome_metrics :=
                 [Sample.metric "MET0001" "GR002" "Meals Distributed" 0 (Some 5)];
               db_reports := [] |}) = Return rows
    /\ rows = [r]
    /\ OutcomePerformance.achievement_percentage r = None.
Proof.
  destruct (zero_denominator_ratio_is_null Sample.julianday
              {| db_grants := [Sample.zero_grant];
                 db_budget_categories := [];
                 db_deliverables := [];
                 db_outcome_metrics :=
                   [Sample.metric "MET0001" "GR002" "Meals Distributed" 0 (Some 5)];
                 db_reports := [] |}) as (_ & rows & Hload & Hnull).
  injection Hload as Hrows. simpl in Hrows.
  eexists. eexists. split; [reflexivity|]. split; [reflexivity|].
  apply Hnull.
  - rewrite <- Hrows. left. reflexivity.
  - reflexivity.
Defined.

(** C3 fails as stated: the row of a grant without budget categories has
    NULL total_spent and remaining_budget, not the empty sum 0 and the
    full amount, and remaining_budget + total_spent is NULL. *)
Lemma grant_without_categories_has_null_total :
  exists row,
    v_grant_summary Sample.julianday [Sample.bare_grant] [] = [row]
    /\ GrantSummary.total_amount row == 100000
    /\ sum_spent_amount (categories_of Sample.bare_grant []) == 0
    /\ GrantSummary.total_spent row = None
    /\ GrantSummary.remaining_budget row = None
    /\ Sql.add (GrantSummary.remaining_budget row) (GrantSummary.total_spent row)
       = None.
Proof.
  eexists. split; [reflexivity|]. simpl. repeat split; reflexivity.
Qed.

(** C3, amended. With grant_id unique in [grants], every grant that has at
    least one budget category with a stored spent_amount has exactly one
    row in the summary; its total_spent is the sum of its categories'
    spent_amount, its remaining_budget is total_amount - total_spent, and
    remaining_budget + total_spent equals total_amount (exactly, in the
    exact arithmetic of the model). *)
Theorem grant_summary_totals :
  forall julianday gs bcs g bc v,
    NoDup (map grants.grant_id gs) ->
    In g gs ->
    In bc (categories_of g bcs) ->
    budget_categories.spent_amount bc = Some v ->
    exists row s r,
      In row (v_grant_summary julianday gs bcs)
      /\ GrantSummary.grant_id row = grants.grant_id g
      /\ (forall row', In row' (v_grant_summary julianday gs bcs) ->
                       GrantSummary.grant_id row' = grants.grant_id g ->
                       row' = row)
      /\ GrantSummary.total_amount row = grants.total_amount g
      /\ GrantSummary.total_spent row = Some s
      /\ s == sum_spent_amount (categories_of g bcs)
      /\ GrantSummary.remaining_budget row = Some r
      /\ r == grants.total_amount g - s
      /\ r + s == grants.total_amount g.
Proof.
  intros jd gs bcs g bc v Hpk Hg Hbc Hv.
  destruct (v_grant_summary_has_row jd gs bcs g Hg) as (row & Hrow & Hid).
  pose proof (v_grant_summary_row jd gs bcs row Hrow)
    as (g' & Hg' & Hid' & Ht & Hsr & Hs & Hr & _).
  rewrite (group_rows_primary_key gs bcs g' Hpk Hg') in Hs, Hsr.
  destruct (join_grant_first bcs g') as (o & rest & Hj).
  assert (Hgg : g' = g).
  { assert (He : grants.grant_id g' = grants.grant_id g) by congruence.
    pose proof (group_rows_primary_key gs bcs g Hpk Hg) as H1.
    pose proof (group_rows_primary_key gs bcs g' Hpk Hg') as H2.
    rewrite He in H2. rewrite H1 in H2.
    destruct (join_grant_first bcs g) as (o1 & rest1 & Hj1).
    rewrite Hj, Hj1 in H2. congruence. }
  subst g'. rewrite join_grant_spent in Hs.
  destruct (sum_some (map budget_categories.spent_amount (categories_of g bcs)) v)
    as (s & Hsum & Hse).
  { rewrite <- Hv. apply in_map. exact Hbc. }
  rewrite sum_spent_amount_fold in Hse.
  exists row, s, (grants.total_amount g - s).
  rewrite Hr, Hs, Hsum. simpl.
  repeat split; try assumption; try reflexivity.
  - intros row' Hrow' Hid''.
    apply (v_grant_summary_key_unique jd gs bcs); congruence.
  - lra.
Qed.

Lemma grant_summary_totals_witness :
  exists row s r,
    In row (v_grant_summary Sample.julianday [Sample.bare_grant]
              [Sample.category "BC0001" "GR001" "Personnel Salaries" 50000 (Some 40000);
               Sample.category "BC0002" "GR001" "Travel" 5000 (Some 5000)])
    /\ GrantSummary.total_spent row = Some s /\ s == 45000
    /\ GrantSummary.remaining_budget row = Some r /\ r == 55000.
Proof.
  destruct (grant_summary_totals Sample.julianday [Sample.bare_grant]
              [Sample.category "BC0001" "GR001" "Personnel Salaries" 50000 (Some 40000);
               Sample.category "BC0002" "GR001" "Travel" 5000 (Some 5000)]
              Sample.bare_grant
              (Sample.category "BC0002" "GR001" "Travel" 5000 (Some 5000)) 5000)
    as (row & s & r & Hin & _ & _ & _ & Hs & Hse & Hr & Hre & _).
  - simpl. constructor; [intros []|constructor].
  - simpl. auto.
  - simpl. auto.
  - reflexivity.
  - exists row, s, r. split; [exact Hin|]. split; [exact Hs|].
    assert (Hs45 : s == 45000) by (rewrite Hse; reflexivity).
    split; [exact Hs45|]. split; [exact Hr|].
    rewrite Hre, Hs45. reflexivity.
Defined.

(** C10. A grant without any budget-category row still has a row in the
    grant summary, and in every row of that grant total_spent,
    remaining_budget and spent_percentage are NULL; remaining_budget +
    total_spent is then NULL as well, so it does not equal total_amount. *)
Theorem grant_without_categories_row_is_null :
  forall julianday gs bcs g,
    In g gs ->
    (forall bc, In bc bcs ->
                budget_categories.grant_id bc <> grants.grant_id g) ->
    (exists row, In row (v_grant_summary julianday gs bcs)
                 /\ GrantSummary.grant_id row = grants.grant_id g)
    /\ forall row,
         In row (v_grant_summary julianday gs bcs) ->
         GrantSummary.grant_id row = grants.grant_id g ->
         GrantSummary.total_spent row = None
         /\ GrantSummary.remaining_budget row = None
         /\ GrantSummary.spent_percentage row = None
         /\ Sql.add (GrantSummary.remaining_budget row)
                    (GrantSummary.total_spent row)
            <> Some (GrantSummary.total_amount row).
Proof.
  intros jd gs bcs g Hg Hnone. split; [apply v_grant_summary_has_row, Hg|].
  intros row Hrow Hid.
  apply v_grant_summary_row in Hrow as (g' & Hg' & Hid' & _ & _ & Hs & Hr & Hp).
  assert (Hnull : GrantSummary.total_spent row = None).
  { rewrite Hs. apply sum_all_null. intros x Hx.
    apply in_map_iff in Hx as (jr & <- & Hjr).
    unfold group_rows in Hjr. apply filter_In in Hjr as (Hjr & Hk).
    apply String.eqb_eq in Hk. apply in_left_join in Hjr as (g0 & _ & Hj).
    apply in_join_grant in Hj as (Hfst & Hsnd).
    unfold joined_spent. destruct (snd jr) as [bc|]; [|reflexivity].
    exfalso. apply in_categories_of in Hsnd as (Hbc & He).
    apply (Hnone bc Hbc). congruence. }
  rewrite Hr, Hp, Hnull. simpl. repeat split; discriminate.
Qed.

Lemma grant_without_categories_row_is_null_witness :
  exists row,
    In row (v_grant_summary Sample.julianday [Sample.bare_grant]
              [Sample.category "BC0009" "GR002" "Travel" 5000 (Some 100)])
    /\ GrantSummary.grant_id row = "GR001"
    /\ GrantSummary.total_spent row = None.
Proof.
  destruct (grant_without_categories_row_is_null Sample.julianday
              [Sample.bare_grant]
              [Sample.category "BC0009" "GR002" "Travel" 5000 (Some 100)]
              Sample.bare_grant) as ((row & Hin & Hid) & Hall).
  - simpl. auto.
  - intros bc [<-|[]]. discriminate.
  - exists row. split; [exact Hin|]. split; [exact Hid|].
    apply (Hall row Hin Hid).
Defined.

(** * Further properties of the views and loaders *)

(** ** Monotonicity of achievement_percentage *)

Lemma ratio_mono_pos (t1 t2 c1 c2 : Q) :
  t1 == t2 -> 0 < t1 -> c1 <= c2 -> 100 * c1 / t1 <= 100 * c2 / t2.
Proof.
  intros He Ht Hc. rewrite <- He. unfold Qdiv.
  apply Qmult_le_compat_r; [lra|].
  apply Qlt_le_weak, Qinv_lt_0_compat, Ht.
Qed.

Lemma ratio_mono_neg (t1 t2 c1 c2 : Q) :
  t1 == t2 -> t1 < 0 -> c1 <= c2 -> 100 * c2 / t2 <= 100 * c1 / t1.
Proof.
  intros He Ht Hc. rewrite <- He.
  assert (Hn : ~ t1 == 0) by lra.
  assert (E1 : 100 * c1 / t1 == (- (100 * c1)) / (- t1)) by (field; lra).
  assert (E2 : 100 * c2 / t1 == (- (100 * c2)) / (- t1)) by (field; lra).
  rewrite E1, E2. unfold Qdiv. apply Qmult_le_compat_r; [lra|].
  apply Qlt_le_weak, Qinv_lt_0_compat. lra.
Qed.

Lemma achievement_percentage_nonzero (om : outcome_metrics.row) (c : Q) :
  ~ outcome_metrics.target_value om == 0 ->
  outcome_metrics.current_value om = Some c ->
  achievement_percentage om
  = Some (Sql.round_half_away (100 * c / outcome_metrics.target_value om) 2).
Proof.
  intros Ht Hc. unfold achievement_percentage. rewrite Hc. simpl.
  destruct (Qeq_bool (outcome_metrics.target_value om) 0) eqn:E; [|reflexivity].
  apply Qeq_bool_iff in E. contradiction.
Qed.

(** With the target held fixed, achievement_percentage does not decrease
    when current_value grows if the target is positive, and does not
    increase if the target is negative. *)
Theorem achievement_percentage_monotone :
  forall om1 om2 c1 c2,
    outcome_metrics.target_value om1 == outcome_metrics.target_value om2 ->
    ~ outcome_metrics.target_value om1 == 0 ->
    outcome_metrics.current_value om1 = Some c1 ->
    outcome_metrics.current_value om2 = Some c2 ->
    c1 <= c2 ->
    exists a1 a2,
      achievement_percentage om1 = Some a1
      /\ achievement_percentage om2 = Some a2
      /\ (0 < outcome_metrics.target_value om1 -> a1 <= a2)
      /\ (outcome_metrics.target_value om1 < 0 -> a2 <= a1).
Proof.
  intros om1 om2 c1 c2 He Hnz H1 H2 Hc.
  assert (Hnz2 : ~ outcome_metrics.target_value om2 == 0)
    by (intro H; apply Hnz; rewrite He; exact H).
  do 2 eexists.
  split; [apply achievement_percentage_nonzero; eassumption|].
  split; [apply achievement_percentage_nonzero; eassumption|].
  split; intro Ht; apply round_half_away_mono.
  - apply ratio_mono_pos; assumption.
  - apply ratio_mono_neg; assumption.
Qed.

Lemma achievement_percentage_monotone_witness :
  exists a1 a2,
    achievement_percentage
      (Sample.metric "MET0001" "GR001" "Patients Served" 200 (Some 150)) = Some a1
    /\ achievement_percentage
         (Sample.metric "MET0002" "GR001" "Patients Served" 200 (Some 199)) = Some a2
    /\ a1 <= a2.
Proof.
  destruct (achievement_percentage_monotone
              (Sample.metric "MET0001" "GR001" "Patients Served" 200 (Some 150))
              (Sample.metric "MET0002" "GR001" "Patients Served" 200 (Some 199))
              150 199) as (a1 & a2 & H1 & H2 & Hpos & _).
  - reflexivity.
  - simpl. intro H. discriminate H.
  - reflexivity.
  - reflexivity.
  - simpl. discriminate.
  - exists a1, a2. split; [exact H1|]. split; [exact H2|].
    apply Hpos. reflexivity.
Defined.

(** ** Ordering of the other two loaders *)

Lemma order_by_asc_ascending {A : Type} (key : A -> option Q) (l : list A) :
  ascending key (order_by (asc key) l).
Proof.
  unfold ascending. apply Sorted_StronglySorted.
  - intros a b c Hab Hbc. eapply null_leb_trans; eassumption.
  - apply (order_by_sorted (asc key)).
    intros a b. unfold asc. apply null_leb_total.
Qed.

(** The outcome loader returns the rows of the view, rearranged by
    descending achievement_percentage, rows without a percentage last. *)
Theorem load_outcome_performance_sorted :
  forall db,
    exists rows,
      load_outcome_performance (Some db) = Return rows
      /\ descending OutcomePerformance.achievement_percentage rows
      /\ Permutation rows
           (v_outcome_performance (db_grants db) (db_outcome_metrics db)).
Proof.
  intro db. eexists. split; [reflexivity|]. split.
  - apply order_by_desc_descending.
  - apply order_by_perm.
Qed.

(** The grant-summary loader returns the rows of the view, rearranged by
    ascending days_remaining, rows whose end date has no Julian day
    first: the grant that ends soonest, or ended longest ago, leads. *)
Theorem load_grant_summary_sorted :
  forall julianday db,
    exists rows,
      load_grant_summary julianday (Some db) = Return rows
      /\ ascending GrantSummary.days_remaining rows
      /\ Permutation rows
           (v_grant_summary julianday (db_grants db) (db_budget_categories db)).
Proof.
  intros jd db. eexists. split; [reflexivity|]. split.
  - apply order_by_asc_ascending.
  - apply order_by_perm.
Qed.

(** ** Row counts of the joins *)

Lemma flat_map_singletons {A B : Type} (f : A -> list B) (l : list A) :
  (forall x, In x l -> List.length (f x) = 1%nat) ->
  List.length (flat_map f l) = List.length l.
Proof.
  induction l as [|x r IH]; intro H; simpl; [reflexivity|].
  rewrite length_app, (H x (or_introl eq_refl)), IH; [reflexivity|].
  intros y Hy. apply H. right. exact Hy.
Qed.

Lemma in_left_join_keys gs bcs k :
  In k (group_keys (left_join gs bcs)) <-> In k (map grants.grant_id gs).
Proof.
  unfold group_keys. rewrite nodup_In, !in_map_iff. split.
  - intros (jr & <- & Hjr). apply in_left_join in Hjr as (g & Hg & Hj).
    apply in_join_grant in Hj as (Hfst & _). exists g. rewrite Hfst. auto.
  - intros (g & <- & Hg). destruct (join_grant_first bcs g) as (o & rest & Hj).
    exists (g, o). split; [reflexivity|]. apply in_left_join. exists g.
    split; [exact Hg|]. rewrite Hj. left. reflexivity.
Qed.

(** The grant summary has one row per distinct grant_id of [grants],
    whatever the budget categories are: no grant is dropped and none is
    repeated. *)
Theorem grant_summary_one_row_per_grant :
  forall julianday gs bcs,
    List.length (v_grant_summary julianday gs bcs)
    = List.length (nodup string_dec (map grants.grant_id gs))
    /\ NoDup (map GrantSummary.grant_id (v_grant_summary julianday gs bcs)).
Proof.
  intros jd gs bcs.
  assert (Hone : forall k, In k (group_keys (left_join gs bcs)) ->
            exists row, summary_row jd (group_rows k (left_join gs bcs)) = Some row
                        /\ GrantSummary.grant_id row = k).
  { intros k Hk. unfold group_keys in Hk. apply nodup_In in Hk.
    apply in_map_iff in Hk as (jr & Hkey & Hjr).
    destruct (group_rows k (left_join gs bcs)) as [|[g o] rest] eqn:E.
    - exfalso. assert (Hin : In jr (group_rows k (left_join gs bcs))).
      { unfold group_rows. apply filter_In. split; [exact Hjr|].
        apply String.eqb_eq, Hkey. }
      rewrite E in Hin. destruct Hin.
    - pose proof (filter_head _ _ _ _ E) as (Hk' & _). simpl in Hk'.
      apply String.eqb_eq in Hk'. eexists. split; [reflexivity|]. exact Hk'. }
  split.
  - unfold v_grant_summary. rewrite flat_map_singletons.
    + apply Permutation_length, NoDup_Permutation.
      * apply NoDup_nodup.
      * apply NoDup_nodup.
      * intro k. rewrite nodup_In. apply in_left_join_keys.
    + intros k Hk. destruct (Hone k Hk) as (row & -> & _). reflexivity.
  - unfold v_grant_summary.
    assert (Hnd : NoDup (group_keys (left_join gs bcs))) by apply NoDup_nodup.
    induction (group_keys (left_join gs bcs)) as [|k ks IH]; [constructor|].
    simpl. inversion Hnd as [|x xs Hnotin Hnd']; subst.
    destruct (Hone k (or_introl eq_refl)) as (row & Hrow & Hid).
    rewrite Hrow. simpl. constructor.
    + rewrite Hid. intro Hin. apply in_map_iff in Hin as (row' & Hid' & Hin').
      apply in_flat_map in Hin' as (k' & Hk' & Hr').
      destruct (Hone k' (or_intror Hk')) as (row'' & Hrow'' & Hid'').
      rewrite Hrow'' in Hr'. destruct Hr' as [<-|[]]. congruence.
    + apply IH; [|exact Hnd']. intros k' Hk'. apply Hone. right. exact Hk'.
Qed.

Lemma grant_exists_iff gs k :
  grant_exists gs k = true <-> In k (map grants.grant_id gs).
Proof.
  unfold grant_exists. rewrite existsb_exists, in_map_iff. split.
  - intros (g & Hg & He). apply String.eqb_eq in He. eauto.
  - intros (g & He & Hg). exists g. split; [exact Hg|].
    apply String.eqb_eq. auto.
Qed.

Lemma no_matching_grant gs k :
  grant_exists gs k = false ->
  filter (fun g => String.eqb k (grants.grant_id g)) gs = [].
Proof.
  intro H. apply filter_all_false. intros g Hg.
  destruct (String.eqb k (grants.grant_id g)) eqn:E; [|reflexivity].
  assert (grant_exists gs k = true)
    by (unfold grant_exists; apply existsb_exists; eauto).
  congruence.
Qed.

(** With grant_id unique in [grants], the outcome view has exactly one row
    for each metric whose grant exists and none for the others. *)
Theorem outcome_rows_count :
  forall gs oms,
    NoDup (map grants.grant_id gs) ->
    List.length (v_outcome_performance gs oms)
    = List.length
        (filter (fun om => grant_exists gs (outcome_metrics.grant_id om)) oms).
Proof.
  intros gs oms Hpk. unfold v_outcome_performance.
  induction oms as [|om r IH]; simpl; [reflexivity|].
  rewrite length_app, length_map, IH.
  destruct (grant_exists gs (outcome_metrics.grant_id om)) eqn:E.
  - apply grant_exists_iff in E.
    rewrite (matching_grant_unique _ _ Hpk E). reflexivity.
  - rewrite (no_matching_grant _ _ E). reflexivity.
Qed.

Lemma outcome_rows_count_witness :
  List.length
    (v_outcome_performance (db_grants Sample.orphans)
       (Sample.metric "MET0002" "GR001" "Patients Served" 200 (Some 150)
        :: db_outcome_metrics Sample.orphans)) = 1%nat.
Proof.
  rewrite (outcome_rows_count (db_grants Sample.orphans)).
  - reflexivity.
  - simpl. constructor; [intros []|constructor].
Defined.

Lemma loaded_alert_count_witness :
  exists rows,
    load_compliance_alerts Sample.julianday (Some Sample.three_alerts)
    = Return rows
    /\ List.length rows = 3%nat.
Proof.
  eexists. split; [reflexivity|].
  rewrite (loaded_alert_count Sample.julianday Sample.three_alerts _).
  - reflexivity.
  - simpl. constructor; [intros []|constructor].
  - simpl. intros a [<-|[<-|[<-|[]]]]; simpl; auto.
  - reflexivity.
Defined.

(** ** Sign of the budget alert's severity *)

(** For an overspent category the percentage over budget is defined and
    not negative when the budget is positive, and not positive when the
    budget is negative. *)
Theorem percent_over_sign :
  forall bc s,
    budget_categories.spent_amount bc = Some s ->
    budget_categories.budgeted_amount bc < s ->
    ~ budget_categories.budgeted_amount bc == 0 ->
    exists p,
      percent_over bc = Some p
      /\ (0 < budget_categories.budgeted_amount bc -> 0 <= p)
      /\ (budget_categories.budgeted_amount bc < 0 -> p <= 0).
Proof.
  intros bc s Hs Hlt Hnz. set (b := budget_categories.budgeted_amount bc) in *.
  eexists. split.
  - rewrite (percent_over_value bc s Hs). fold b.
    destruct (Qeq_bool b 0) eqn:E; [|reflexivity].
    apply Qeq_bool_iff in E. contradiction.
  - assert (R0 : Sql.round_half_away 0 2 == 0) by reflexivity.
    split; intro Hb.
    + assert (0 <= 100 * (s - b) / b)
        by (apply Qle_shift_div_l; [exact Hb|lra]).
      pose proof (round_half_away_mono 2 _ _ H). lra.
    + assert (E : 100 * (s - b) / b == (- (100 * (s - b))) / (- b))
        by (field; lra).
      assert (100 * (s - b) / b <= 0).
      { rewrite E. apply Qle_shift_div_r; lra. }
      pose proof (round_half_away_mono 2 _ _ H). lra.
Qed.

Lemma percent_over_sign_witness :
  exists p,
    percent_over (Sample.category "BC0005" "GR001" "Travel" 8000 (Some 9000))
    = Some p /\ 0 <= p.
Proof.
  destruct (percent_over_sign
              (Sample.category "BC0005" "GR001" "Travel" 8000 (Some 9000)) 9000)
    as (p & Hp & Hpos & _).
  - reflexivity.
  - reflexivity.
  - simpl. intro H. discriminate H.
  - exists p. split; [exact Hp|]. apply Hpos. reflexivity.
Defined.

(** * The dashboard pages *)

(** ** Financial Management: the totals *)

Lemma series_fold_shift (l : list (option Q)) (a : Q) :
  fold_left (fun acc x => match x with Some v => acc + v | None => acc end) l a
  == a + series_sum l.
Proof.
  unfold series_sum. revert a.
  induction l as [|[v|] r IH]; intro a; simpl.
  - lra.
  - rewrite (IH (a + v)), (IH (0 + v)). lra.
  - apply IH.
Qed.

Lemma series_sum_cons (x : option Q) (l : list (option Q)) :
  series_sum (x :: l)
  == match x with Some v => v | None => 0 end + series_sum l.
Proof.
  unfold series_sum at 1. simpl. destruct x as [v|].
  - rewrite series_fold_shift. lra.
  - rewrite series_fold_shift. lra.
Qed.

Lemma summary_row_balance julianday gs bcs row :
  In row (v_grant_summary julianday gs bcs) ->
  GrantSummary.remaining_budget row
  = Sql.sub (Some (GrantSummary.total_amount row)) (GrantSummary.total_spent row).
Proof.
  intro H. apply v_grant_summary_row in H as (g & _ & _ & Ht & _ & _ & Hr & _).
  rewrite Hr, Ht. reflexivity.
Qed.

Lemma financial_balance_rows (rows : list GrantSummary.row) :
  (forall r, In r rows ->
     GrantSummary.remaining_budget r
     = Sql.sub (Some (GrantSummary.total_amount r)) (GrantSummary.total_spent r)) ->
  series_sum (map (fun r => Some (GrantSummary.total_amount r)) rows)
  == series_sum (map GrantSummary.total_spent rows)
     + series_sum (map GrantSummary.remaining_budget rows)
     + series_sum (map (fun r => match GrantSummary.total_spent r with
                                 | Some _ => None
                                 | None => Some (GrantSummary.total_amount r)
                                 end) rows).
Proof.
  induction rows as [|r rest IH]; intro H.
  - reflexivity.
  - simpl map. rewrite !series_sum_cons.
    rewrite (H r (or_introl eq_refl)).
    assert (IH' := IH (fun x Hx => H x (or_intror Hx))).
    destruct (GrantSummary.total_spent r) as [s|]; simpl; lra.
Qed.

(** On the Financial Management page, Total Budget equals Total Spent plus
    Remaining Budget plus the amounts of the grants whose summary row has
    no total_spent (grants without stored spending).  The three figures
    balance exactly when every grant has a total_spent. *)
Theorem financial_totals_balance :
  forall julianday db rows,
    load_grant_summary julianday (Some db) = Return rows ->
    let m := show_financial_metrics rows in
    Financial.total_budget m
    == Financial.total_spent m + Financial.remaining m
       + series_sum (map (fun r => match GrantSummary.total_spent r with
                                   | Some _ => None
                                   | None => Some (GrantSummary.total_amount r)
                                   end) rows)
    /\ ((forall r, In r rows -> GrantSummary.total_spent r <> None) ->
        Financial.total_budget m
        == Financial.total_spent m + Financial.remaining m).
Proof.
  intros jd db rows Hload m. injection Hload as Hrows.
  assert (Hinv : forall r, In r rows ->
            GrantSummary.remaining_budget r
            = Sql.sub (Some (GrantSummary.total_amount r))
                      (GrantSummary.total_spent r)).
  { intros r Hr. rewrite <- Hrows in Hr.
    apply (Permutation_in _ (order_by_perm (asc GrantSummary.days_remaining) _))
      in Hr.
    eapply summary_row_balance; eassumption. }
  pose proof (financial_balance_rows rows Hinv) as Hbal.
  split; [exact Hbal|].
  intro Hall. subst m. simpl. rewrite Hbal.
  assert (Hz : series_sum
                 (map (fun r => match GrantSummary.total_spent r with
                                | Some _ => None
                                | None => Some (GrantSummary.total_amount r)
                                end) rows) == 0).
  { clear Hbal Hinv Hrows. induction rows as [|r rest IH]; [reflexivity|].
    simpl map. rewrite series_sum_cons.
    pose proof (Hall r (or_introl eq_refl)) as Hr.
    destruct (GrantSummary.total_spent r); [|contradiction].
    rewrite IH; [lra|]. intros x Hx. apply Hall. right. exact Hx. }
  rewrite Hz. lra.
Qed.

Lemma financial_totals_balance_witness :
  exists rows,
    load_grant_summary Sample.julianday (Some Fixture.two_grants) = Return rows
    /\ Financial.total_budget (show_financial_metrics rows)
       == Financial.total_spent (show_financial_metrics rows)
          + Financial.remaining (show_financial_metrics rows)
          + 0.
Proof.
  eexists. split; [reflexivity|].
  destruct (financial_totals_balance Sample.julianday Fixture.two_grants _ eq_refl)
    as (H & _).
  rewrite H. reflexivity.
Defined.

(** ** Pages that divide by a row count *)

(** An inner join with [grants] is empty exactly when no row's grant
    exists. *)
Lemma join_grants_nil_iff {A B : Type} (key : A -> string)
  (h : A -> grants.row -> B) (gs : list grants.row) (xs : list A) :
  flat_map (fun x => map (h x)
                         (filter (fun g => String.eqb (key x) (grants.grant_id g))
                                 gs)) xs = []
  <-> forall x, In x xs -> grant_exists gs (key x) = false.
Proof.
  induction xs as [|x r IH]; simpl.
  - split; [intros _ y []|reflexivity].
  - split.
    + intros H y [Hxy|Hy].
      * subst y. apply app_eq_nil in H as (H & _). apply map_eq_nil in H.
        destruct (grant_exists gs (key x)) eqn:E; [|reflexivity].
        unfold grant_exists in E. apply existsb_exists in E as (g & Hg & He).
        assert (Hin : In g (filter (fun g => String.eqb (key x) (grants.grant_id g)) gs))
          by (apply filter_In; auto).
        rewrite H in Hin. destruct Hin.
      * apply app_eq_nil in H as (_ & H). apply IH; assumption.
    + intro H. rewrite (no_matching_grant gs (key x) (H x (or_introl eq_refl))).
      simpl. apply IH. intros y Hy. apply H. right. exact Hy.
Qed.

Lemma order_by_length {A : Type} (leb : A -> A -> bool) (l : list A) :
  List.length (order_by leb l) = List.length l.
Proof. apply Permutation_length, order_by_perm. Qed.

Lemma py_percent_crash (a b : nat) :
  py_percent a b = Crash ZeroDivisionError <-> b = 0%nat.
Proof.
  unfold py_percent. destruct (Nat.eqb b 0) eqn:E.
  - apply Nat.eqb_eq in E. tauto.
  - apply Nat.eqb_neq in E. split; [discriminate|contradiction].
Qed.

Lemma py_percent_shown (a b : nat) (pct : Q) :
  py_percent a b = Shown pct ->
  (a <= b)%nat -> (0 < b)%nat /\ 0 <= pct /\ pct <= 100.
Proof.
  unfold py_percent. destruct (Nat.eqb b 0) eqn:E; [discriminate|].
  apply Nat.eqb_neq in E. intros [= <-] Hab.
  assert (Hb : 0 < inject_Z (Z.of_nat b)).
  { replace 0 with (inject_Z 0) by reflexivity. rewrite <- Zlt_Qlt. lia. }
  assert (Ha : 0 <= inject_Z (Z.of_nat a)).
  { replace 0 with (inject_Z 0) by reflexivity. rewrite <- Zle_Qle. lia. }
  assert (Hle : inject_Z (Z.of_nat a) <= inject_Z (Z.of_nat b)).
  { rewrite <- Zle_Qle. lia. }
  split; [lia|].
  assert (H0 : 0 <= inject_Z (Z.of_nat a) / inject_Z (Z.of_nat b))
    by (apply Qle_shift_div_l; [exact Hb|lra]).
  assert (H1 : inject_Z (Z.of_nat a) / inject_Z (Z.of_nat b) <= 1)
    by (apply Qle_shift_div_r; [exact Hb|lra]).
  split; lra.
Qed.

Lemma count_status_le {A : Type} (status : A -> option string) (v : string)
  (df : list A) : (count_status status v df <= List.length df)%nat.
Proof. unfold count_status. apply filter_length_le. Qed.

(** The Outcomes page fails with ZeroDivisionError exactly when the
    database is there but no outcome metric belongs to an existing grant
    (in particular when there are no metrics); otherwise the share of
    metrics on track it shows lies between 0 and 100. *)
Theorem show_outcomes_division :
  forall db,
    (show_outcomes (Some db) = Crash ZeroDivisionError
     <-> forall om, In om (db_outcome_metrics db) ->
                    grant_exists (db_grants db) (outcome_metrics.grant_id om)
                    = false)
    /\ (forall on_track total pct,
          show_outcomes (Some db) = Shown (on_track, total, pct) ->
          (0 < total)%nat /\ (on_track <= total)%nat
          /\ 0 <= pct /\ pct <= 100).
Proof.
  intro db. unfold show_outcomes, load_outcome_performance, run_query. simpl.
  unfold metrics_on_track.
  set (rows := order_by (desc OutcomePerformance.achievement_percentage)
                 (v_outcome_performance (db_grants db) (db_outcome_metrics db))).
  set (k := count_status (fun r => Some (OutcomePerformance.status r))
              "On Track" rows).
  assert (Hk : (k <= List.length rows)%nat) by apply count_status_le.
  split.
  - assert (Hlen : List.length rows
                   = List.length (v_outcome_performance (db_grants db)
                                    (db_outcome_metrics db)))
      by apply order_by_length.
    assert (Hnil : List.length rows = 0%nat
                   <-> forall om, In om (db_outcome_metrics db) ->
                         grant_exists (db_grants db) (outcome_metrics.grant_id om)
                         = false).
    { rewrite Hlen, length_zero_iff_nil.
      apply (join_grants_nil_iff outcome_metrics.grant_id outcome_row). }
    rewrite <- Hnil, <- (py_percent_crash k).
    destruct (py_percent k (List.length rows)) as [pct|e].
    + split; intro; discriminate.
    + split; intro H; injection H as ->; reflexivity.
  - intros on_track total pct H.
    destruct (py_percent k (List.length rows)) as [p|e] eqn:E; [|discriminate].
    injection H as <- <- <-.
    destruct (py_percent_shown _ _ _ E Hk) as (H1 & H2 & H3). auto.
Qed.

Lemma show_outcomes_division_witness :
  show_outcomes (Some Sample.orphans) = Crash ZeroDivisionError.
Proof.
  destruct (show_outcomes_division Sample.orphans) as ((_ & H) & _).
  apply H. intros om [<-|[]]. reflexivity.
Defined.

(** The Compliance page fails with ZeroDivisionError exactly when the
    database is there and either no deliverable or no report belongs to
    an existing grant. *)
Theorem show_compliance_division :
  forall julianday db,
    show_compliance julianday (Some db) = Crash ZeroDivisionError
    <-> (forall d, In d (db_deliverables db) ->
                   grant_exists (db_grants db) (deliverables.grant_id d) = false)
        \/ (forall r, In r (db_reports db) ->
                      grant_exists (db_grants db) (reports.grant_id r) = false).
Proof.
  intros jd db.
  unfold show_compliance, load_compliance_alerts, load_deliverables_status,
    load_reports_timeline, run_query. simpl.
  set (drows := order_by (SqlText.desc DeliverableStatus.due_date) _).
  set (rrows := order_by (SqlText.desc ReportTimeline.due_date) _).
  assert (Hd : List.length drows = 0%nat
               <-> forall d, In d (db_deliverables db) ->
                     grant_exists (db_grants db) (deliverables.grant_id d) = false).
  { unfold drows. rewrite order_by_length, length_zero_iff_nil.
    apply (join_grants_nil_iff deliverables.grant_id (deliverable_status_row jd)). }
  assert (Hr : List.length rrows = 0%nat
               <-> forall r, In r (db_reports db) ->
                     grant_exists (db_grants db) (reports.grant_id r) = false).
  { unfold rrows. rewrite order_by_length, length_zero_iff_nil.
    apply (join_grants_nil_iff reports.grant_id
             (fun r g =>
                {| ReportTimeline.grant_name := grants.grant_name g;
                   ReportTimeline.report_type := reports.report_type r;
                   ReportTimeline.due_date := reports.due_date r;
                   ReportTimeline.submission_date := reports.submission_date r;
                   ReportTimeline.status := reports.status r |})). }
  rewrite <- Hd, <- Hr.
  set (completed := count_status DeliverableStatus.status "Completed" drows).
  set (submitted := count_status ReportTimeline.status "Submitted" rrows).
  rewrite <- (py_percent_crash completed (List.length drows)).
  rewrite <- (py_percent_crash submitted (List.length rrows)).
  destruct (py_percent completed (List.length drows)) as [dpct|e] eqn:Ed.
  - destruct (py_percent submitted (List.length rrows)) as [rpct|e].
    + split; [intro; discriminate|]. intros [H|H]; discriminate.
    + split; [intro H; right; injection H as ->; reflexivity|].
      intros [H|H]; [discriminate|injection H as ->; reflexivity].
  - split; [intro H; left; injection H as ->; reflexivity|].
    intros [H|H]; [injection H as ->; reflexivity|].
    unfold py_percent in Ed.
    destruct (Nat.eqb (List.length drows) 0); [|discriminate].
    injection Ed as <-. reflexivity.
Qed.

Lemma show_compliance_division_witness :
  show_compliance Sample.julianday (Some Sample.orphans) = Crash ZeroDivisionError.
Proof.
  apply (show_compliance_division Sample.julianday Sample.orphans).
  left. intros d [].
Defined.

(** ** Deliverable lateness *)

Lemma in_load_deliverables_status julianday db rows row :
  load_deliverables_status julianday (Some db) = Return rows ->
  (In row rows <->
   exists d g, In d (db_deliverables db) /\ In g (db_grants db)
               /\ deliverables.grant_id d = grants.grant_id g
               /\ row = deliverable_status_row julianday d g).
Proof.
  intros [= <-].
  pose proof (order_by_perm (SqlText.desc DeliverableStatus.due_date)
    (flat_map
       (fun d => map (deliverable_status_row julianday d)
                     (filter (fun g => String.eqb (deliverables.grant_id d)
                                                  (grants.grant_id g))
                             (db_grants db)))
       (db_deliverables db))) as Hp.
  split.
  - intro H. apply (Permutation_in _ Hp) in H.
    apply in_flat_map in H as (d & Hd & H).
    apply in_map_iff in H as (g & <- & Hg).
    apply filter_In in Hg as (Hg & He). apply String.eqb_eq in He.
    exists d, g. auto.
  - intros (d & g & Hd & Hg & He & ->).
    apply (Permutation_in _ (Permutation_sym Hp)).
    apply in_flat_map. exists d. split; [exact Hd|].
    apply in_map, filter_In. split; [exact Hg|]. apply String.eqb_eq, He.
Qed.

(** The text of a calendar date is read the same whatever the clock. *)
Lemma julianday_of_date (clock : Q) (s : string) (ymd : Z * Z * Z) :
  Julian.parse_ymd s = Some ymd ->
  Julian.julianday clock s = Some (Julian.computeJD ymd).
Proof.
  intro H. unfold Julian.julianday.
  destruct (String.eqb s "now") eqn:E.
  - apply String.eqb_eq in E. subst s. discriminate H.
  - rewrite H. reflexivity.
Qed.

(** An Overdue deliverable of an existing grant is on both lists, and
    both numbers count from its due date: days_late in the deliverable
    list is the clock of that query minus the due date, days_overdue of
    its Overdue Deliverable alert is the clock of the alert query minus
    the due date.  The two queries read the clock separately, so the two
    numbers differ by the time between the two reads. *)
Theorem overdue_days_late_and_alert :
  forall n1 n2 db rows alerts d g ymd,
    load_deliverables_status (Julian.julianday n1) (Some db) = Return rows ->
    load_compliance_alerts (Julian.julianday n2) (Some db) = Return alerts ->
    In d (db_deliverables db) ->
    deliverables.status d = Some "Overdue" ->
    In g (db_grants db) ->
    deliverables.grant_id d = grants.grant_id g ->
    Julian.parse_ymd (deliverables.due_date d) = Some ymd ->
    exists row a x y,
      In row rows /\ In a alerts
      /\ DeliverableStatus.deliverable_name row = deliverables.deliverable_name d
      /\ DeliverableStatus.due_date row = deliverables.due_date d
      /\ ComplianceAlert.alert_type (AlertListing.alert a) = "Overdue Deliverable"
      /\ ComplianceAlert.item_name (AlertListing.alert a)
         = deliverables.deliverable_name d
      /\ ComplianceAlert.due_date (AlertListing.alert a)
         = Some (deliverables.due_date d)
      /\ DeliverableStatus.days_late row = Some x
      /\ AlertListing.days_overdue a = Some y
      /\ x == n1 - Julian.computeJD ymd
      /\ y == n2 - Julian.computeJD ymd
      /\ x - y == n1 - n2.
Proof.
  intros n1 n2 db rows alerts d g ymd Hrows Halerts Hd Hs Hg He Hymd.
  exists (deliverable_status_row (Julian.julianday n1) d g),
         {| AlertListing.alert := deliverable_alert (Julian.julianday n2) d;
            AlertListing.grant_name := grants.grant_name g;
            AlertListing.funder_name := grants.funder_name g |},
         (n1 - Julian.computeJD ymd), (n2 - Julian.computeJD ymd).
  split; [|split].
  - apply (in_load_deliverables_status _ db rows _ Hrows). exists d, g. auto.
  - injection Halerts as <-.
    apply (Permutation_in _ (Permutation_sym (order_by_perm _ _))).
    apply in_alerts_join_grants.
    exists (deliverable_alert (Julian.julianday n2) d), g.
    repeat split; [|exact Hg|exact He].
    apply in_v_compliance_alerts. right; left. exists d.
    repeat split; [exact Hd|]. apply deliverable_overdue_iff, Hs.
  - unfold AlertListing.days_overdue.
    cbn [deliverable_status_row deliverable_alert AlertListing.alert
         DeliverableStatus.deliverable_name DeliverableStatus.due_date
         DeliverableStatus.days_late ComplianceAlert.alert_type
         ComplianceAlert.item_name ComplianceAlert.due_date
         ComplianceAlert.days_overdue].
    split; [reflexivity|]. split; [reflexivity|]. split; [reflexivity|].
    split; [reflexivity|]. split; [reflexivity|].
    split; [|split; [|split; [reflexivity|split; [reflexivity|ring]]]].
    + unfold days_late. rewrite Hs.
      rewrite (julianday_of_date n1 _ _ Hymd). reflexivity.
    + unfold days_since.
      rewrite (julianday_of_date n2 _ _ Hymd). reflexivity.
Qed.

Lemma overdue_days_late_and_alert_witness :
  exists row a,
    In row match load_deliverables_status (Julian.julianday Sample.noon)
                   (Some Sample.three_alerts)
           with Return rows => rows | Raise _ => [] end
    /\ In a match load_compliance_alerts
                    (Julian.julianday (Sample.noon + (1 # 4)))
                    (Some Sample.three_alerts)
            with Return alerts => alerts | Raise _ => [] end
    /\ DeliverableStatus.deliverable_name row = "Final Report"
    /\ ComplianceAlert.alert_type (AlertListing.alert a) = "Overdue Deliverable"
    /\ exists x y,
         DeliverableStatus.days_late row = Some x
         /\ AlertListing.days_overdue a = Some y
         /\ x - y == - (1 # 4).
Proof.
  destruct (overdue_days_late_and_alert Sample.noon (Sample.noon + (1 # 4))
              Sample.three_alerts _ _
              (Sample.deliverable "DEL0001" "GR001" "2026-10-25" (Some "Overdue"))
              (Sample.grant "GR001" "Clinic Program" 100000 "2027-01-01")
              (2026, 10, 25)%Z
              eq_refl eq_refl)
    as (row & a & x & y & Hrow & Ha & Hn & _ & Hty & _ & _ & Hx & Hy & _ & _ & Hd).
  - simpl. auto.
  - reflexivity.
  - simpl. auto.
  - reflexivity.
  - reflexivity.
  - exists row, a. split; [exact Hrow|]. split; [exact Ha|].
    split; [exact Hn|]. split; [exact Hty|].
    exists x, y. split; [exact Hx|]. split; [exact Hy|].
    rewrite Hd. reflexivity.
Defined.

(** ** Priority Alerts *)

Lemma strongly_sorted_app {A : Type} (R : A -> A -> Prop) (l1 l2 : list A) :
  StronglySorted R (l1 ++ l2) ->
  forall a b, In a l1 -> In b l2 -> R a b.
Proof.
  induction l1 as [|x r IH]; intros Hs a b Ha Hb; [destruct Ha|].
  simpl in Hs. inversion Hs as [|y ys Hs' Hall]; subst.
  destruct Ha as [<-|Ha].
  - rewrite Forall_forall in Hall. apply Hall, in_or_app. right. exact Hb.
  - apply IH; assumption.
Qed.

Lemma loaded_alerts_descending julianday db alerts :
  load_compliance_alerts julianday (Some db) = Return alerts ->
  descending AlertListing.days_overdue alerts.
Proof.
  intros [= <-]. apply order_by_desc_descending.
Qed.

(** The Priority Alerts box shows the first five alerts of the loaded
    list, or all of them when there are fewer; no alert left out has a
    larger days_overdue than an alert shown. *)
Theorem priority_alerts_are_most_severe :
  forall julianday db alerts,
    load_compliance_alerts julianday (Some db) = Return alerts ->
    List.length (priority_alerts alerts) = Nat.min 5 (List.length alerts)
    /\ forall shown hidden,
         In shown (priority_alerts alerts) ->
         In hidden (skipn 5 alerts) ->
         Sql.null_leb (AlertListing.days_overdue hidden)
                      (AlertListing.days_overdue shown) = true.
Proof.
  intros jd db alerts Hload. split.
  - unfold priority_alerts. apply length_firstn.
  - intros shown hidden Hs Hh.
    pose proof (loaded_alerts_descending jd db alerts Hload) as Hsorted.
    unfold descending in Hsorted.
    rewrite <- (firstn_skipn 5 alerts) in Hsorted.
    apply (strongly_sorted_app _ _ _ Hsorted shown hidden Hs Hh).
Qed.

Lemma priority_alerts_are_most_severe_witness :
  exists alerts,
    load_compliance_alerts Sample.julianday (Some Sample.three_alerts)
    = Return alerts
    /\ List.length (priority_alerts alerts) = 3%nat.
Proof.
  eexists. split; [reflexivity|].
  destruct (priority_alerts_are_most_severe Sample.julianday Sample.three_alerts
              _ eq_refl) as (Hlen & _).
  rewrite Hlen. reflexivity.
Defined.

(** * The synthetic data generator *)

(** ** Status windows *)

(** A generated report is Overdue only when it fell due within the last
    15 days; one due earlier is always Submitted, one not yet due is
    always Not Started. *)
Theorem report_status_windows :
  forall due now status,
    In status (Generator.generate_reports_status due now) ->
    (status = "Overdue" -> now - 15 <= due /\ due < now)
    /\ (due < now - 15 -> status = "Submitted")
    /\ (now <= due -> status = "Not Started").
Proof.
  intros due now status. unfold Generator.generate_reports_status.
  destruct (Sql.Qltb due (now - 15)) eqn:E1.
  - apply Qltb_lt in E1. simpl. intros [<-|[]].
    repeat split; try discriminate; intros; try reflexivity; lra.
  - assert (H1 : now - 15 <= due).
    { apply Qnot_lt_le. intro H. apply Qltb_lt in H. congruence. }
    destruct (Sql.Qltb due now) eqn:E2.
    + apply Qltb_lt in E2. intros _. repeat split; intros; try assumption; lra.
    + assert (H2 : now <= due).
      { apply Qnot_lt_le. intro H. apply Qltb_lt in H. congruence. }
      simpl. intros [<-|[]].
      repeat split; try discriminate; intros; try reflexivity; lra.
Qed.

Lemma report_status_windows_witness :
  In "Overdue" (Generator.generate_reports_status 100 110)
  /\ 110 - 15 <= 100 /\ 100 < 110.
Proof.
  assert (Hin : In "Overdue" (Generator.generate_reports_status 100 110))
    by (vm_compute; auto).
  destruct (report_status_windows 100 110 "Overdue" Hin) as (H & _).
  split; [exact Hin|]. apply H. reflexivity.
Defined.

(** A generated deliverable is Overdue only when it fell due within the
    last 30 days; one due earlier is Completed or Late, one not yet due is
    Not Started or In Progress. *)
Theorem deliverable_status_windows :
  forall due now status,
    In status (Generator.generate_deliverables_status due now) ->
    (status = "Overdue" -> now - 30 <= due /\ due < now)
    /\ (due < now - 30 -> status = "Completed" \/ status = "Late")
    /\ (now <= due -> status = "Not Started" \/ status = "In Progress").
Proof.
  intros due now status. unfold Generator.generate_deliverables_status.
  destruct (Sql.Qltb due (now - 30)) eqn:E1.
  - apply Qltb_lt in E1. simpl. intros [<-|[<-|[<-|[<-|[]]]]];
      repeat split; try discriminate; intros; auto; lra.
  - assert (H1 : now - 30 <= due).
    { apply Qnot_lt_le. intro H. apply Qltb_lt in H. congruence. }
    destruct (Sql.Qltb due now) eqn:E2.
    + apply Qltb_lt in E2. intros _. repeat split; intros; try assumption; lra.
    + assert (H2 : now <= due).
      { apply Qnot_lt_le. intro H. apply Qltb_lt in H. congruence. }
      simpl. intros [<-|[<-|[]]];
        repeat split; try discriminate; intros; auto; lra.
Qed.

Lemma deliverable_status_windows_witness :
  In "Overdue" (Generator.generate_deliverables_status 100 120)
  /\ 120 - 30 <= 100 /\ 100 < 120.
Proof.
  assert (Hin : In "Overdue" (Generator.generate_deliverables_status 100 120))
    by (vm_compute; auto).
  destruct (deliverable_status_windows 100 120 "Overdue" Hin) as (H & _).
  split; [exact Hin|]. apply H. reflexivity.
Defined.

(** ** Budget distribution *)

Lemma amounts_total_cons (ca : string * Q) (l : list (string * Q)) :
  Generate.amounts_total (ca :: l) = snd ca + Generate.amounts_total l.
Proof. reflexivity. Qed.

Lemma distribute_total (total : Q) (draw : nat -> Q) (n : nat) :
  forall cats idx remaining,
    (idx + List.length cats = n)%nat -> cats <> [] ->
    Generate.amounts_total (Generate.distribute total draw n idx cats remaining)
    == remaining.
Proof.
  induction cats as [|c rest IH]; intros idx remaining Hlen Hne;
    [contradiction|].
  simpl in Hlen.
  change (Generate.distribute total draw n idx (c :: rest) remaining)
    with (if Nat.eqb idx (n - 1)
          then (c, remaining)
                 :: Generate.distribute total draw n (S idx) rest remaining
          else (c, total * Generate.percentage c (draw idx))
                 :: Generate.distribute total draw n (S idx) rest
                      (remaining - total * Generate.percentage c (draw idx))).
  destruct (Nat.eqb idx (n - 1)) eqn:E.
  - apply Nat.eqb_eq in E. destruct rest as [|c' rest'].
    + simpl. lra.
    + simpl in Hlen. lia.
  - apply Nat.eqb_neq in E. rewrite amounts_total_cons.
    rewrite (IH (S idx)).
    + simpl. lra.
    + lia.
    + intros ->. simpl in Hlen. lia.
Qed.

Lemma distribute_names (total : Q) (draw : nat -> Q) (n : nat) :
  forall cats idx remaining,
    map fst (Generate.distribute total draw n idx cats remaining) = cats.
Proof.
  induction cats as [|c rest IH]; intros idx remaining; [reflexivity|].
  simpl. destruct (Nat.eqb idx (n - 1)); simpl; rewrite IH; reflexivity.
Qed.

(** Whatever is drawn, the amounts given to the eight budget categories of
    a grant add up to the grant's total_amount (before they are rounded),
    one amount per category in the fixed order. *)
Theorem budget_amounts_add_up :
  forall total draw,
    map fst (Generate.budget_amounts total draw) = Generate.categories
    /\ Generate.amounts_total (Generate.budget_amounts total draw) == total.
Proof.
  intros total draw. unfold Generate.budget_amounts. split.
  - apply distribute_names.
  - apply distribute_total; [reflexivity|discriminate].
Qed.

(** The last category, Indirect Costs, receives what the other seven
    leave: between -20% and 30% of a non-negative total, so its budget
    can be negative; the 8-12% draw written for it is never used. *)
Theorem indirect_costs_is_remainder :
  forall total draw,
    0 <= total ->
    (forall i, (i < 7)%nat -> 0 <= draw i /\ draw i < 1) ->
    exists a,
      nth_error (Generate.budget_amounts total draw) 7
      = Some ("Indirect Costs", a)
      /\ - (0.2) * total <= a /\ a <= 0.3 * total
      /\ forall draw',
           (forall i, (i < 7)%nat -> draw' i = draw i) ->
           nth_error (Generate.budget_amounts total draw') 7
           = nth_error (Generate.budget_amounts total draw) 7.
Proof.
  intros total draw Ht Hd.
  eexists. split; [reflexivity|].
  assert (Hp : forall i, (i < 7)%nat ->
             0 <= total * draw i /\ total * draw i <= total).
  { intros i Hi. destruct (Hd i Hi) as (H0 & H1). split.
    - apply Qmult_le_0_compat; assumption.
    - assert (H : 0 <= total * (1 - draw i))
        by (apply Qmult_le_0_compat; [exact Ht|lra]).
      assert (E : total * (1 - draw i) == total - total * draw i) by ring.
      rewrite E in H. lra. }
  pose proof (Hp 0%nat ltac:(lia)) as (A0 & B0).
  pose proof (Hp 1%nat ltac:(lia)) as (A1 & B1).
  pose proof (Hp 2%nat ltac:(lia)) as (A2 & B2).
  pose proof (Hp 3%nat ltac:(lia)) as (A3 & B3).
  pose proof (Hp 4%nat ltac:(lia)) as (A4 & B4).
  pose proof (Hp 5%nat ltac:(lia)) as (A5 & B5).
  pose proof (Hp 6%nat ltac:(lia)) as (A6 & B6).
  unfold Generate.percentage, Generate.uniform. simpl String.eqb. cbv iota.
  set (p0 := total * draw 0%nat) in *. set (p1 := total * draw 1%nat) in *.
  set (p2 := total * draw 2%nat) in *. set (p3 := total * draw 3%nat) in *.
  set (p4 := total * draw 4%nat) in *. set (p5 := total * draw 5%nat) in *.
  set (p6 := total * draw 6%nat) in *.
  assert (E : forall lo w r, total * (lo + w * r) == lo * total + w * (total * r))
    by (intros; ring).
  rewrite !E. fold p0 p1 p2 p3 p4 p5 p6.
  split; [lra|]. split; [lra|].
  intros draw' Heq. unfold Generate.budget_amounts. simpl.
  rewrite !Heq by lia. reflexivity.
Qed.

(** ** Python rounding *)

Lemma round_to_int_bounds (y : Q) :
  (Qfloor y <= Py.round_to_int y <= Qfloor y + 1)%Z.
Proof.
  unfold Py.round_to_int.
  destruct (Qcompare (y - inject_Z (Qfloor y)) (1 # 2)); [|lia|lia].
  destruct (Z.even (Qfloor y)); lia.
Qed.

Lemma round_to_int_mono (x y : Q) :
  x <= y -> (Py.round_to_int x <= Py.round_to_int y)%Z.
Proof.
  intro Hxy. pose proof (Qfloor_resp_le _ _ Hxy) as Hf.
  pose proof (round_to_int_bounds x) as Bx.
  pose proof (round_to_int_bounds y) as By.
  destruct (Z.eq_dec (Qfloor x) (Qfloor y)) as [E|E]; [|lia].
  unfold Py.round_to_int. rewrite <- E.
  destruct (Qcompare (x - inject_Z (Qfloor x)) (1 # 2)) eqn:Cx;
    destruct (Qcompare (y - inject_Z (Qfloor x)) (1 # 2)) eqn:Cy;
    try (destruct (Z.even (Qfloor x))); try lia.
  - apply Qeq_alt in Cx. apply Qlt_alt in Cy. lra.
  - apply Qgt_alt in Cx. apply Qeq_alt in Cy. lra.
  - apply Qgt_alt in Cx. apply Qlt_alt in Cy. lra.
  - apply Qgt_alt in Cx. apply Qlt_alt in Cy. lra.
Qed.

(** round(x, n) never reverses an order. *)
Lemma py_round_mono (n : nat) (x y : Q) :
  x <= y -> Py.round x n <= Py.round y n.
Proof.
  intro Hxy. unfold Py.round. pose proof (scale_pos n) as Hs.
  unfold Qdiv. apply Qmult_le_compat_r.
  - rewrite <- Zle_Qle. apply round_to_int_mono.
    apply Qmult_le_compat_r; [exact Hxy|apply Qlt_le_weak, Hs].
  - apply Qlt_le_weak, Qinv_lt_0_compat, Hs.
Qed.

(** ** Spending of a completed grant *)

Lemma first_seven_amounts total draw category amount :
  In (category, amount) (Generate.budget_amounts total draw) ->
  category <> "Indirect Costs" ->
  exists i, (i < 7)%nat
            /\ amount = total * Generate.percentage category (draw i).
Proof.
  unfold Generate.budget_amounts. simpl.
  intros [H|[H|[H|[H|[H|[H|[H|[H|[]]]]]]]]] Hne;
    injection H as <- <-; try contradiction.
  - exists 0%nat. split; [lia|reflexivity].
  - exists 1%nat. split; [lia|reflexivity].
  - exists 2%nat. split; [lia|reflexivity].
  - exists 3%nat. split; [lia|reflexivity].
  - exists 4%nat. split; [lia|reflexivity].
  - exists 5%nat. split; [lia|reflexivity].
  - exists 6%nat. split; [lia|reflexivity].
Qed.

Lemma percentage_nonneg category r : 0 <= r -> 0 <= Generate.percentage category r.
Proof.
  intro Hr. unfold Generate.percentage, Generate.uniform.
  destruct (String.eqb category "Personnel Salaries");
    [|destruct (String.eqb category "Fringe Benefits");
      [|destruct (String.eqb category "Indirect Costs")]];
    lra.
Qed.

Lemma completed_row_not_overspent (g : BudgetRows.grant) count category amount r :
  BudgetRows.status g = "Completed" ->
  0 <= amount -> 0 <= r -> r < 1 ->
  overspent (BudgetRows.category_row g count category amount r) = false.
Proof.
  intros Hs Ha Hr0 Hr1. unfold overspent. simpl.
  unfold BudgetRows.spent_pct. rewrite Hs. simpl String.eqb. cbv iota.
  assert (Hle : Qle_bool (Py.round (amount * Generate.uniform 0.90 1.00 r) 2)
                         (Py.round amount 2) = true).
  { apply Qle_bool_iff, py_round_mono. unfold Generate.uniform.
    assert (H : 0 <= amount * (1 - (0.90 + (1.00 - 0.90) * r)))
      by (apply Qmult_le_0_compat; [exact Ha|lra]).
    assert (E : amount * (1 - (0.90 + (1.00 - 0.90) * r))
                == amount - amount * (0.90 + (1.00 - 0.90) * r)) by ring.
    rewrite E in H. lra. }
  unfold Sql.Qltb. rewrite Hle. reflexivity.
Qed.

Lemma in_grant_rows g spend bc :
  forall amounts count idx,
    In bc (BudgetRows.grant_rows g count idx spend amounts) ->
    exists category amount c i,
      In (category, amount) amounts
      /\ bc = BudgetRows.category_row g c category amount (spend i).
Proof.
  induction amounts as [|[category amount] rest IH]; intros count idx H;
    [destruct H|].
  simpl in H. destruct H as [<-|H].
  - exists category, amount, count, idx. split; [left; reflexivity|reflexivity].
  - destruct (IH _ _ H) as (c' & a' & n' & i' & Hin & ->).
    exists c', a', n', i'. split; [right; exact Hin|reflexivity].
Qed.

Lemma generate_from_cons k g rest draw spend budget_cats :
  BudgetRows.generate_from k (g :: rest) draw spend budget_cats
  = BudgetRows.generate_from (S k) rest draw spend
      (budget_cats
       ++ BudgetRows.grant_rows g (List.length budget_cats) 0 (spend k)
            (Generate.budget_amounts (BudgetRows.total_amount g) (draw k))).
Proof. reflexivity. Qed.

Lemma in_generate_from bc draw spend :
  forall gs k budget_cats,
    In bc (BudgetRows.generate_from k gs draw spend budget_cats) ->
    In bc budget_cats
    \/ exists g j category amount c i,
         In g gs
         /\ In (category, amount)
               (Generate.budget_amounts (BudgetRows.total_amount g) (draw j))
         /\ bc = BudgetRows.category_row g c category amount (spend j i).
Proof.
  induction gs as [|g rest IH]; intros k budget_cats H; [left; exact H|].
  rewrite generate_from_cons in H. apply IH in H as [H|H].
  - apply in_app_or in H as [H|H]; [left; exact H|right].
    apply in_grant_rows in H as (category & amount & c & i & Hin & ->).
    exists g, k, category, amount, c, i. split; [left; reflexivity|auto].
  - right. destruct H as (g' & j & category & amount & c & i & Hg & Hin & ->).
    exists g', j, category, amount, c, i. split; [right; exact Hg|auto].
Qed.

(** When every grant is Completed and has a non-negative amount, no
    generated budget category other than Indirect Costs is overspent, so
    none of them raises a Budget Overspent alert. *)
Theorem completed_grants_stay_within_budget :
  forall gs draw spend,
    (forall g, In g gs -> BudgetRows.status g = "Completed"
                          /\ 0 <= BudgetRows.total_amount g) ->
    (forall k i, 0 <= draw k i /\ draw k i < 1) ->
    (forall k i, 0 <= spend k i /\ spend k i < 1) ->
    forall bc,
      In bc (BudgetRows.generate_budget_categories gs draw spend) ->
      budget_categories.category_name bc <> "Indirect Costs" ->
      overspent bc = false
      /\ forall julianday rs ds a,
           In a (v_compliance_alerts julianday rs ds [bc]) ->
           ComplianceAlert.alert_type a <> "Budget Overspent".
Proof.
  intros gs draw spend Hg Hd Hsp bc Hbc Hname.
  assert (Hno : overspent bc = false).
  { apply in_generate_from in Hbc as [[]|H].
    destruct H as (g & j & category & amount & c & i & Hin & Ham & ->).
    simpl in Hname. destruct (Hg g Hin) as (Hs & Ht).
    destruct (first_seven_amounts _ _ _ _ Ham Hname) as (i0 & _ & ->).
    destruct (Hsp j i) as (H0 & H1).
    apply completed_row_not_overspent; try assumption.
    apply Qmult_le_0_compat; [exact Ht|].
    apply percentage_nonneg. apply (Hd j i0). }
  split; [exact Hno|].
  intros jd rs ds a Ha.
  apply in_v_compliance_alerts in Ha
    as [(r & _ & _ & ->)|[(d & _ & _ & ->)|(bc' & Hin & Ho & _)]].
  - simpl. discriminate.
  - simpl. discriminate.
  - destruct Hin as [<-|[]]. congruence.
Qed.

Lemma completed_grants_stay_within_budget_witness :
  overspent
    (BudgetRows.category_row GenSample.completed 0 "Personnel Salaries"
       (100000 * Generate.percentage "Personnel Salaries" 0.5) 0.5) = false.
Proof.
  apply (completed_grants_stay_within_budget [GenSample.completed]
           GenSample.halves GenSample.halves).
  - intros g [<-|[]]. split; [reflexivity|discriminate].
  - intros k i. split; [discriminate|reflexivity].
  - intros k i. split; [discriminate|reflexivity].
  - left. reflexivity.
  - simpl. discriminate.
Defined.

Lemma indirect_costs_is_remainder_witness :
  exists a,
    nth_error (Generate.budget_amounts 100000 GenSample.high) 7
    = Some ("Indirect Costs", a)
    /\ a == - 19500.
Proof.
  destruct (indirect_costs_is_remainder 100000 GenSample.high)
    as (a & Hn & _ & _ & _).
  - discriminate.
  - intros i _. split; [discriminate|reflexivity].
  - exists a. split; [exact Hn|].
    vm_compute in Hn. injection Hn as <-. reflexivity.
Defined.

(** ** Identifiers *)

Lemma uint_of_zeros (k : nat) (s : string) :
  NilEmpty.uint_of_string
    (String.append (string_of_list_ascii (repeat "0"%char k)) s)
  = option_map (Nat.iter k Decimal.D0) (NilEmpty.uint_of_string s).
Proof.
  induction k as [|k IH]; simpl.
  - destruct (NilEmpty.uint_of_string s); reflexivity.
  - rewrite IH. destruct (NilEmpty.uint_of_string s); reflexivity.
Qed.

Lemma of_uint_zeros (k : nat) (d : Decimal.uint) :
  Nat.of_uint (Nat.iter k Decimal.D0 d) = Nat.of_uint d.
Proof.
  induction k as [|k IH]; simpl; [reflexivity|]. exact IH.
Qed.

(** Reading a zero-padded number back gives the number, also when it has
    more digits than the width. *)
Lemma int_zero_pad (width n : nat) : Py.int (Py.zero_pad width n) = Some n.
Proof.
  unfold Py.int, Py.zero_pad, Py.str. rewrite uint_of_zeros, NilEmpty.usu.
  simpl. rewrite of_uint_zeros, DecimalNat.Unsigned.of_to. reflexivity.
Qed.

Lemma zero_pad_inj (width a b : nat) :
  Py.zero_pad width a = Py.zero_pad width b -> a = b.
Proof.
  intro H. pose proof (int_zero_pad width a) as Ha.
  rewrite H, int_zero_pad in Ha. congruence.
Qed.

Lemma append_inj_l (prefix x y : string) :
  String.append prefix x = String.append prefix y -> x = y.
Proof.
  induction prefix as [|c p IH]; simpl; intro E; [exact E|].
  injection E as E. apply IH, E.
Qed.

Lemma numbered_ids_nodup (prefix : string) (width : nat) :
  forall n start,
    NoDup (map (fun i => String.append prefix (Py.zero_pad width (i + 1)))
               (seq start n)).
Proof.
  intros n start. apply Finite.Injective_map_NoDup; [|apply seq_NoDup].
  intros a b H. apply append_inj_l, zero_pad_inj in H. lia.
Qed.

(** The grant ids the generator writes are pairwise distinct for every
    number of grants, and each carries its grant's number: the primary
    key of [grants] holds for generated data. *)
Theorem generated_grant_ids_distinct :
  forall n,
    NoDup (generate_grants_ids n)
    /\ List.length (generate_grants_ids n) = n
    /\ forall i, (i < n)%nat ->
         exists digits,
           nth_error (generate_grants_ids n) i = Some (String.append "GR" digits)
           /\ Py.int digits = Some (i + 1)%nat.
Proof.
  intro n. unfold generate_grants_ids. split; [|split].
  - apply numbered_ids_nodup.
  - rewrite length_map, length_seq. reflexivity.
  - intros i Hi. exists (Py.zero_pad 3 (i + 1)). split.
    + rewrite nth_error_map, nth_error_seq.
      destruct (Nat.ltb i n) eqn:E; [reflexivity|].
      apply Nat.ltb_ge in E. lia.
    + apply int_zero_pad.
Qed.

(** ** The generated budget rows *)

Lemma grant_rows_ids g spend :
  forall amounts count idx,
    map budget_categories.category_id
        (BudgetRows.grant_rows g count idx spend amounts)
    = map (fun i => String.append "BC" (Py.zero_pad 4 (i + 1)))
          (seq count (List.length amounts)).
Proof.
  induction amounts as [|[category amount] rest IH]; intros count idx;
    [reflexivity|].
  simpl. f_equal. apply IH.
Qed.

Lemma grant_rows_length g spend :
  forall amounts count idx,
    List.length (BudgetRows.grant_rows g count idx spend amounts)
    = List.length amounts.
Proof.
  induction amounts as [|[category amount] rest IH]; intros count idx;
    [reflexivity|].
  simpl. f_equal. apply IH.
Qed.

Lemma budget_amounts_length total draw :
  List.length (Generate.budget_amounts total draw) = 8%nat.
Proof. reflexivity. Qed.

Lemma generate_from_shape draw spend :
  forall gs k budget_cats,
    map budget_categories.category_id budget_cats
    = map (fun i => String.append "BC" (Py.zero_pad 4 (i + 1)))
          (seq 0 (List.length budget_cats)) ->
    let out := BudgetRows.generate_from k gs draw spend budget_cats in
    List.length out = (List.length budget_cats + 8 * List.length gs)%nat
    /\ map budget_categories.category_id out
       = map (fun i => String.append "BC" (Py.zero_pad 4 (i + 1)))
             (seq 0 (List.length out)).
Proof.
  induction gs as [|g rest IH]; intros k budget_cats Hids.
  - simpl. split; [lia|exact Hids].
  - intro out. subst out. rewrite generate_from_cons.
    set (rows := BudgetRows.grant_rows g (List.length budget_cats) 0 (spend k)
                   (Generate.budget_amounts (BudgetRows.total_amount g) (draw k))).
    assert (Hlen : List.length rows = 8%nat)
      by (unfold rows; rewrite grant_rows_length; reflexivity).
    destruct (IH (S k) (budget_cats ++ rows)) as (H1 & H2).
    + rewrite map_app, length_app, seq_app, map_app, Hids.
      apply f_equal2; [reflexivity|].
      rewrite Hlen. unfold rows.
      rewrite grant_rows_ids, budget_amounts_length. reflexivity.
    + split; [|exact H2]. rewrite H1, length_app, Hlen. simpl. lia.
Qed.

(** The generator writes eight budget categories per grant, numbered
    BC0001, BC0002, ... in the order written; the ids are pairwise
    distinct, and every category carries the id of one of the grants. *)
Theorem generated_budget_rows_shape :
  forall gs draw spend,
    let out := BudgetRows.generate_budget_categories gs draw spend in
    List.length out = (8 * List.length gs)%nat
    /\ map budget_categories.category_id out
       = map (fun i => String.append "BC" (Py.zero_pad 4 (i + 1)))
             (seq 0 (List.length out))
    /\ NoDup (map budget_categories.category_id out)
    /\ forall bc, In bc out ->
         exists g, In g gs
                   /\ budget_categories.grant_id bc = BudgetRows.grant_id g.
Proof.
  intros gs draw spend out.
  destruct (generate_from_shape draw spend gs 0 [] eq_refl) as (H1 & H2).
  fold (BudgetRows.generate_budget_categories gs draw spend) in H1, H2.
  fold out in H1, H2. split; [exact H1|]. split; [exact H2|]. split.
  - rewrite H2. apply numbered_ids_nodup.
  - intros bc Hbc. apply in_generate_from in Hbc as [[]|H].
    destruct H as (g & j & category & amount & c & i & Hg & _ & ->).
    exists g. split; [exact Hg|reflexivity].
Qed.

(** ** Rounded budgets against the grant total *)

Lemma round_to_int_error (y : Q) :
  y - (1 # 2) <= inject_Z (Py.round_to_int y)
  /\ inject_Z (Py.round_to_int y) <= y + (1 # 2).
Proof.
  pose proof (Qfloor_le y) as Hlo. pose proof (Qlt_floor y) as Hhi.
  rewrite inject_Z_plus in Hhi. change (inject_Z 1) with 1 in Hhi.
  unfold Py.round_to_int.
  destruct (Qcompare (y - inject_Z (Qfloor y)) (1 # 2)) eqn:C.
  - apply Qeq_alt in C. destruct (Z.even (Qfloor y)).
    + split; lra.
    + rewrite inject_Z_plus. change (inject_Z 1) with 1. split; lra.
  - apply Qlt_alt in C. split; lra.
  - apply Qgt_alt in C. rewrite inject_Z_plus. change (inject_Z 1) with 1.
    split; lra.
Qed.

(** round(x, 2) is within half a cent of x. *)
Lemma py_round2_error (x : Q) :
  x - (1 # 200) <= Py.round x 2 /\ Py.round x 2 <= x + (1 # 200).
Proof.
  unfold Py.round. change (inject_Z (10 ^ Z.of_nat 2)) with 100.
  destruct (round_to_int_error (x * 100)) as (Hlo & Hhi).
  split.
  - apply Qle_shift_div_l; [reflexivity|lra].
  - apply Qle_shift_div_r; [reflexivity|lra].
Qed.

Lemma grant_rows_budget_error g spend :
  forall amounts count idx,
    let n := inject_Z (Z.of_nat (List.length amounts)) in
    Generate.amounts_total amounts - n * (1 # 200)
    <= sum_budgeted_amount (BudgetRows.grant_rows g count idx spend amounts)
    /\ sum_budgeted_amount (BudgetRows.grant_rows g count idx spend amounts)
       <= Generate.amounts_total amounts + n * (1 # 200).
Proof.
  induction amounts as [|[category amount] rest IH]; intros count idx n.
  - subst n. split; intro H; vm_compute in H; discriminate H.
  - subst n. destruct (IH (S count) (S idx)) as (Hlo & Hhi).
    destruct (py_round2_error amount) as (Rlo & Rhi).
    rewrite amounts_total_cons. cbn [List.length].
    rewrite Nat2Z.inj_succ, <- Z.add_1_r, inject_Z_plus.
    change (inject_Z 1) with 1.
    cbn [BudgetRows.grant_rows sum_budgeted_amount fold_right
         BudgetRows.category_row budget_categories.budgeted_amount snd].
    fold (sum_budgeted_amount
            (BudgetRows.grant_rows g (S count) (S idx) spend rest)).
    split; lra.
Qed.

(** The rounded budgets of a generated grant's eight categories add up to
    the grant's total_amount to within four cents. *)
Theorem generated_budgets_approximate_total :
  forall g count spend draw,
    let rows := BudgetRows.grant_rows g count 0 spend
                  (Generate.budget_amounts (BudgetRows.total_amount g) draw) in
    BudgetRows.total_amount g - (4 # 100) <= sum_budgeted_amount rows
    /\ sum_budgeted_amount rows <= BudgetRows.total_amount g + (4 # 100).
Proof.
  intros g count spend draw rows.
  destruct (grant_rows_budget_error g spend
              (Generate.budget_amounts (BudgetRows.total_amount g) draw) count 0)
    as (Hlo & Hhi).
  fold rows in Hlo, Hhi.
  assert (Hsum : Generate.amounts_total
                   (Generate.budget_amounts (BudgetRows.total_amount g) draw)
                 == BudgetRows.total_amount g)
    by (apply distribute_total; [reflexivity|discriminate]).
  rewrite Hsum in Hlo, Hhi. rewrite budget_amounts_length in Hlo, Hhi.
  change (inject_Z (Z.of_nat 8)) with 8 in Hlo, Hhi.
  split; lra.
Qed.

(** ** The report schedule *)

Lemma py_int_of_Z (x : Q) (z : Z) : (0 <= z)%Z -> x == inject_Z z -> py_int x = z.
Proof.
  intros Hz Hx. rewrite py_int_floor.
  - rewrite Hx. apply Qfloor_Z.
  - rewrite Hx. replace 0 with (inject_Z 0) by reflexivity.
    rewrite <- Zle_Qle. exact Hz.
Qed.

Lemma n_reports_bounds days frequency :
  (2 <= ReportSchedule.n_reports days frequency <= 12)%Z.
Proof. unfold ReportSchedule.n_reports. lia. Qed.

Lemma due_offset_bounds days n i :
  (0 <= days)%Z -> (0 < n)%Z -> (0 <= i < n)%Z ->
  (0 <= ReportSchedule.due_offset days n i <= days)%Z.
Proof.
  intros Hd Hn Hi. unfold ReportSchedule.due_offset.
  assert (Qn : 0 < inject_Z n)
    by (replace 0 with (inject_Z 0) by reflexivity; rewrite <- Zlt_Qlt; exact Hn).
  assert (Qd : 0 <= inject_Z days)
    by (replace 0 with (inject_Z 0) by reflexivity; rewrite <- Zle_Qle; exact Hd).
  assert (Qi0 : 0 <= inject_Z (i + 1))
    by (replace 0 with (inject_Z 0) by reflexivity; rewrite <- Zle_Qle; lia).
  assert (Qi1 : inject_Z (i + 1) <= inject_Z n) by (rewrite <- Zle_Qle; lia).
  assert (F0 : 0 <= inject_Z (i + 1) / inject_Z n)
    by (apply Qle_shift_div_l; [exact Qn|lra]).
  assert (F1 : inject_Z (i + 1) / inject_Z n <= 1)
    by (apply Qle_shift_div_r; [exact Qn|lra]).
  set (f := inject_Z (i + 1) / inject_Z n) in *.
  assert (P0 : 0 <= inject_Z days * f) by (apply Qmult_le_0_compat; assumption).
  assert (P1 : inject_Z days * f <= inject_Z days).
  { assert (H : 0 <= inject_Z days * (1 - f))
      by (apply Qmult_le_0_compat; [exact Qd|lra]).
    assert (E : inject_Z days * (1 - f) == inject_Z days - inject_Z days * f)
      by ring.
    rewrite E in H. lra. }
  rewrite (py_int_floor _ P0). split.
  - apply Qfloor_nonneg, P0.
  - apply Z.le_trans with (Qfloor (inject_Z days)).
    + apply Qfloor_resp_le, P1.
    + rewrite Qfloor_Z. lia.
Qed.

(** A generated grant has between 2 and 12 reports, whatever its
    reporting frequency; when the grant does not end before it starts,
    every report falls due within the grant period and the last one on
    the end date itself. *)
Theorem report_schedule_within_grant :
  forall days frequency,
    (0 <= days)%Z ->
    let offsets := ReportSchedule.due_offsets days frequency in
    (2 <= List.length offsets <= 12)%nat
    /\ (forall o, In o offsets -> (0 <= o <= days)%Z)
    /\ last offsets 0%Z = days.
Proof.
  intros days frequency Hd offsets. subst offsets.
  unfold ReportSchedule.due_offsets.
  pose proof (n_reports_bounds days frequency) as Hn.
  set (n := ReportSchedule.n_reports days frequency) in *.
  split; [|split].
  - rewrite length_map, length_seq. lia.
  - intros o Ho. apply in_map_iff in Ho as (i & <- & Hi).
    apply in_seq in Hi. apply due_offset_bounds; lia.
  - assert (Hnat : Z.to_nat n = S (Z.to_nat n - 1)) by lia.
    rewrite Hnat, seq_S, map_app. cbn [map]. rewrite last_last. cbn [Nat.add].
    unfold ReportSchedule.due_offset. apply py_int_of_Z; [exact Hd|].
    replace (Z.of_nat (Z.to_nat n - 1) + 1)%Z with n by lia.
    assert (Qn : 0 < inject_Z n).
    { replace 0 with (inject_Z 0) by reflexivity. rewrite <- Zlt_Qlt. lia. }
    field. lra.
Qed.

Lemma report_schedule_within_grant_witness :
  ReportSchedule.due_offsets 360 "Quarterly" = [90; 180; 270; 360]%Z
  /\ last (ReportSchedule.due_offsets 360 "Quarterly") 0%Z = 360%Z.
Proof.
  destruct (report_schedule_within_grant 360 "Quarterly") as (_ & _ & Hlast).
  - discriminate.
  - split; [reflexivity|exact Hlast].
Defined.

(** ** Generated outcome metrics *)

Lemma metric_target_at_least_4 unit rt k :
  0 <= rt -> (50 <= k)%Z -> 4 <= MetricRows.target unit rt k.
Proof.
  intros Hr Hk. unfold MetricRows.target, Generate.uniform.
  destruct (String.eqb unit "Percentage"); [lra|].
  destruct (String.eqb unit "Rating"); [lra|].
  apply Qle_trans with (inject_Z 50); [discriminate|].
  rewrite <- Zle_Qle. exact Hk.
Qed.

(** Every purpose, listed or not, gets four metrics. *)
Lemma metric_list_length purpose :
  List.length (MetricRows.metric_list purpose) = 4%nat.
Proof.
  unfold MetricRows.metric_list, MetricRows.metrics_by_purpose.
  cbn [find fst snd].
  repeat match goal with
         | |- context [String.eqb ?a purpose] =>
             destruct (String.eqb a purpose); [reflexivity|]
         end.
  reflexivity.
Qed.

(** A generated metric always has a positive target, so its
    achievement_percentage is never NULL, and a metric measured as a
    Rating is never At Risk: its current value is at least 85% of its
    target before rounding.  Every purpose yields four metrics. *)
Theorem generated_metric_properties :
  forall count grant_id frequency metric_name unit rt k rc,
    0 <= rt -> rt < 1 -> 0 <= rc -> rc < 1 -> (50 <= k)%Z ->
    let om := MetricRows.metric_row count grant_id frequency metric_name unit
                rt k rc in
    0 < outcome_metrics.target_value om
    /\ achievement_percentage om <> None
    /\ (unit = "Rating" -> outcome_status om <> "At Risk")
    /\ forall purpose, List.length (MetricRows.metric_list purpose) = 4%nat.
Proof.
  intros count gid freq name unit rt k rc Hrt0 Hrt1 Hrc0 Hrc1 Hk om.
  pose proof (metric_target_at_least_4 unit rt k Hrt0 Hk) as Ht.
  set (t := MetricRows.target unit rt k) in *.
  destruct (py_round2_error t) as (Tlo & Thi).
  assert (Hpos : 0 < outcome_metrics.target_value om) by (simpl; fold t; lra).
  split; [exact Hpos|]. split; [|split].
  - rewrite (achievement_percentage_defined om _ Hpos eq_refl). discriminate.
  - intros ->. subst om.
    pose proof (outcome_status_cases
                  (MetricRows.metric_row count gid freq name "Rating" rt k rc))
      as Hcase.
    cbn [MetricRows.metric_row outcome_metrics.current_value
         outcome_metrics.target_value] in Hcase.
    fold t in Hcase.
    set (c := MetricRows.current "Rating" t rc) in *.
    destruct (py_round2_error c) as (Clo & Chi).
    assert (Hc : (85 # 100) * t <= c).
    { unfold c, MetricRows.current, Generate.uniform. simpl String.eqb. cbv iota.
      assert (H : 0 <= t * rc) by (apply Qmult_le_0_compat; lra).
      assert (E : t * (0.85 + (1.05 - 0.85) * rc)
                  == (85 # 100) * t + (2 # 10) * (t * rc)) by ring.
      rewrite E. lra. }
    destruct Hcase as (Hon & Hna & _).
    assert (Hn : Binary64.min_normal <= Py.round t 2 * 0.75)
      by (pose proof min_normal_le_1; lra).
    destruct (fl64_error _ Hn) as (_ & Bhi).
    unfold Binary64.unit_roundoff in Bhi.
    destruct (Qlt_le_dec (Py.round c 2) (Py.round t 2)) as [Hlt|Hge].
    + rewrite (Hna Hlt); [discriminate|lra].
    + rewrite (Hon Hge). discriminate.
  - apply metric_list_length.
Qed.

Lemma generated_metric_properties_witness :
  outcome_status
    (MetricRows.metric_row 0 "GR001" "Quarterly" "Patient Satisfaction" "Rating"
       0.5 50 0) <> "At Risk".
Proof.
  destruct (generated_metric_properties 0 "GR001" "Quarterly"
              "Patient Satisfaction" "Rating" 0.5 50 0)
    as (_ & _ & H & _).
  - discriminate.
  - reflexivity.
  - discriminate.
  - reflexivity.
  - discriminate.
  - apply H. reflexivity.
Defined.

Lemma generated_grant_ids_distinct_witness :
  generate_grants_ids 5 = ["GR001"; "GR002"; "GR003"; "GR004"; "GR005"]
  /\ NoDup (generate_grants_ids 5).
Proof.
  split; [reflexivity|].
  apply (generated_grant_ids_distinct 5).
Defined.

Lemma generated_budget_rows_shape_witness :
  List.length
    (BudgetRows.generate_budget_categories
       [GenSample.completed; GenSample.completed]
       GenSample.halves GenSample.halves) = 16%nat.
Proof.
  destruct (generated_budget_rows_shape [GenSample.completed; GenSample.completed]
              GenSample.halves GenSample.halves) as (H & _).
  exact H.
Defined.
